(** * PDF-OCR chart selector: the [determine_chart_type] variants

    A shallow embedding of the six [determine_chart_type] functions of the
    repository (str.py, waterfall.py, pqr.py, xyz.py, csv1.py, abc_chat.py)
    over a small model of the pandas objects they inspect, followed by the
    properties of the selector.

    Conventions of the model:
    - a DataFrame is its ordered list of columns (label, dtype, cells) and the
      length of its index; [len(df)] is the index length, [len(df.columns)] the
      number of columns;
    - in [Pandas] column labels are Python [str] values, as [pd.read_csv]
      produces them from a header row; the DataFrames with int labels, on
      which [col.lower()] raises, are in [Labels]; [str.lower] is modelled
      on the ASCII letters;
    - a dtype is one of the tags below; [df.dtypes[i]] is positional (labels
      are strings, so pandas 1.x/2.x falls back to the position);
    - a returned chart kind is the Python string itself, [None] is [None]. *)

From Stdlib Require Import String Ascii Bool Arith Lia ZArith List.
From Stdlib Require Import Permutation.
Import ListNotations.
Open Scope string_scope.
Open Scope nat_scope.

(** ** The pandas objects *)

Module Pandas.

Inductive Dtype : Type :=
| Int64 | Float64 | Int32 | Float32
| Bool | Object | Category | Datetime64.

Definition Dtype_eq_dec (a b : Dtype) : {a = b} + {a <> b}.
Proof. decide equality. Defined.

(** [dtype in ['int64', 'float64']]: membership of a dtype in a list of
    dtype names. *)
Definition dtype_in (d : Dtype) (names : list Dtype) : bool :=
  if in_dec Dtype_eq_dec d names then true else false.

(** The dtypes below [np.number] in numpy's hierarchy. *)
Definition is_np_number (d : Dtype) : bool :=
  match d with
  | Int64 | Float64 | Int32 | Float32 => true
  | Bool | Object | Category | Datetime64 => false
  end.

(** A cell of a column; a float64 cell is kept as its 64-bit pattern. *)
Inductive Cell : Type :=
| CInt (z : Z)
| CFloat (bits : Z)
| CStr (s : string)
| CBool (b : bool).

Record Column : Type := mkColumn {
  name : string;
  dtype : Dtype;
  values : list Cell
}.

Record DataFrame : Type := mkDataFrame {
  columns : list Column;
  index_len : nat
}.

(** Every column has one cell per index entry. *)
Definition rectangular (df : DataFrame) : Prop :=
  Forall (fun c => length (values c) = index_len df) (columns df).

(** [len(df)] *)
Definition len (df : DataFrame) : nat := index_len df.

(** [df.empty]: some axis has length 0. *)
Definition empty (df : DataFrame) : bool :=
  (length (columns df) =? 0) || (len df =? 0).

(** [df.select_dtypes(include=names).columns] *)
Definition select_dtypes (include : list Dtype) (df : DataFrame)
  : list Column :=
  filter (fun c => dtype_in (dtype c) include) (columns df).

(** [df.select_dtypes(include=[np.number]).columns.tolist()] *)
Definition select_number (df : DataFrame) : list Column :=
  filter (fun c => is_np_number (dtype c)) (columns df).

(** [df.select_dtypes(exclude=[np.number]).columns.tolist()] *)
Definition select_not_number (df : DataFrame) : list Column :=
  filter (fun c => negb (is_np_number (dtype c))) (columns df).

(** The argument of str.py's function: a DataFrame of this model (its labels
    are str) or an object that is no DataFrame.  The DataFrames with other
    labels are in [Labels] below. *)
Inductive PyObject : Type :=
| PyDataFrame (df : DataFrame)
| PyOther.

Inductive Exn : Type :=
| ValueError (msg : string)
| TypeError.

(** Outcome of a call: the returned value ([None] or a [str]) or the
    exception that left the function. *)
Inductive Result : Type :=
| Returns (v : option string)
| Raises (e : Exn).

End Pandas.
Import Pandas.

(** ** Python strings *)

Definition lower_ascii (c : ascii) : ascii :=
  let n := nat_of_ascii c in
  if (65 <=? n) && (n <=? 90) then ascii_of_nat (n + 32) else c.

(** [s.lower()] *)
Fixpoint lower (s : string) : string :=
  match s with
  | EmptyString => EmptyString
  | String c rest => String (lower_ascii c) (lower rest)
  end.

(** [word in l] for a list of strings *)
Definition str_in (word : string) (l : list string) : bool :=
  existsb (String.eqb word) l.

(** [any(f(x) for x in l)] *)
Definition any {A : Type} (f : A -> bool) (l : list A) : bool := existsb f l.

(** ** waterfall.py

    On a DataFrame of [Pandas], whose labels are str, [col.lower()] succeeds
    for every column, so the function returns; [WaterfallLabels] below is the
    same function on DataFrames whose labels may be int. *)

Module Waterfall.

Definition determine_chart_type (df : DataFrame) : option string :=
  let num_cols := select_dtypes [Int64; Float64] df in
  let cat_cols := select_dtypes [Object; Category] df in
  if (length (columns df) =? 2) && (length num_cols =? 1)
     && (length cat_cols =? 1) && (len df <=? 10)
  then Some "pie"
  else if (2 <=? length (columns df)) && (0 <? length num_cols)
     && (let time_columns := map (fun col => lower (name col)) (columns df) in
         any (fun word => str_in word time_columns)
             ["month"; "year"; "date"; "time"; "day"])
  then Some "line"
  else if 2 <=? length num_cols
  then Some "scatter"
  else if (length (columns df) =? 1) && (length num_cols =? 1)
  then Some "histogram"
  else if (1 <? length (columns df))
     && (length num_cols =? length (columns df))
  then Some "heatmap"
  else if 3 <=? length num_cols
  then Some "bubble"
  else if (2 <? length (columns df)) && (1 <? length num_cols)
     && (length cat_cols =? 1)
  then Some "radar"
  else if ((length (columns df) =? 2) && (length num_cols =? 1)
           && (length cat_cols =? 1))
       || ((2 <? length (columns df)) && (0 <? length cat_cols)
           && (0 <? length num_cols))
  then Some "bar"
  else if ((length (columns df) =? 2) && (length num_cols =? 1)
           && (length cat_cols =? 1))
       || ((2 <? length (columns df)) && (0 <? length num_cols))
  then Some "area"
  else if (length (columns df) =? 2) && (length num_cols =? 1)
     && (length cat_cols =? 1)
  then Some "dot"
  else if (length (columns df) =? 2) && (length num_cols =? 1)
     && (length cat_cols =? 1)
  then Some "treemap"
  else if (length (columns df) =? 2) && (length num_cols =? 1)
     && (length cat_cols =? 1) && (len df <=? 5)
  then Some "gauge"
  else None.

End Waterfall.

(** ** str.py: the same rules behind two input guards *)

Module Str.

Definition determine_chart_type (obj : PyObject) : Result :=
  match obj with
  | PyOther => Raises (ValueError "Input must be a pandas DataFrame.")
  | PyDataFrame df =>
    if empty df then Raises (ValueError "Input DataFrame is empty.")
    else
    let num_cols := select_dtypes [Int64; Float64] df in
    let cat_cols := select_dtypes [Object; Category] df in
    if (length (columns df) =? 2) && (length num_cols =? 1)
       && (length cat_cols =? 1) && (len df <=? 10)
    then Returns (Some "pie")
    else if (2 <=? length (columns df)) && (0 <? length num_cols)
       && (let time_columns :=
             map (fun col => lower (name col)) (columns df) in
           any (fun word => str_in word time_columns)
               ["month"; "year"; "date"; "time"; "day"])
    then Returns (Some "line")
    else if 2 <=? length num_cols
    then Returns (Some "scatter")
    else if (length (columns df) =? 1) && (length num_cols =? 1)
    then Returns (Some "histogram")
    else if (1 <? length (columns df))
       && (length num_cols =? length (columns df))
    then Returns (Some "heatmap")
    else if 3 <=? length num_cols
    then Returns (Some "bubble")
    else if (2 <? length (columns df)) && (1 <? length num_cols)
       && (length cat_cols =? 1)
    then Returns (Some "radar")
    else if ((length (columns df) =? 2) && (length num_cols =? 1)
             && (length cat_cols =? 1))
         || ((2 <? length (columns df)) && (0 <? length cat_cols)
             && (0 <? length num_cols))
    then Returns (Some "bar")
    else if ((length (columns df) =? 2) && (length num_cols =? 1)
             && (length cat_cols =? 1))
         || ((2 <? length (columns df)) && (0 <? length num_cols))
    then Returns (Some "area")
    else if (length (columns df) =? 2) && (length num_cols =? 1)
       && (length cat_cols =? 1)
    then Returns (Some "dot")
    else if (length (columns df) =? 2) && (length num_cols =? 1)
       && (length cat_cols =? 1)
    then Returns (Some "treemap")
    else if (length (columns df) =? 2) && (length num_cols =? 1)
       && (length cat_cols =? 1) && (len df <=? 5)
    then Returns (Some "gauge")
    else Returns None
  end.

End Str.

(** ** pqr.py and xyz.py: rules on the dtypes of the leading columns

    [len(df.columns) == 1 / == 2 / >= 3] select the shape of the column list,
    and [df.dtypes[0]], [df.dtypes[1]], [df.dtypes[2]] are the dtypes of the
    columns the shape binds.  A chain of [if]/[elif] without [else] falls to
    the final [return None]. *)

Module Pqr.

Definition determine_chart_type (df : DataFrame) : option string :=
  match columns df with
  | [c0] =>
    if dtype_in (dtype c0) [Int64; Float64] then Some "histogram"
    else None
  | [c0; c1] =>
    if dtype_in (dtype c0) [Int64; Float64]
       && dtype_in (dtype c1) [Int64; Float64]
    then Some "scatter"
    else if dtype_in (dtype c1) [Int64; Float64] && (1 <? len df)
    then Some "bar"
    else if dtype_in (dtype c1) [Int64; Float64] && (len df <=? 10)
    then Some "pie"
    else None
  | c0 :: c1 :: c2 :: _ =>
    if dtype_in (dtype c0) [Object; Category]
       && dtype_in (dtype c1) [Object; Category]
       && dtype_in (dtype c2) [Int64; Float64]
    then Some "heatmap"
    else if dtype_in (dtype c1) [Int64; Float64]
    then Some "line"
    else None
  | [] => None
  end.

End Pqr.

Module Xyz.

Definition determine_chart_type (df : DataFrame) : option string :=
  match columns df with
  | [c0] =>
    if dtype_in (dtype c0) [Int64; Float64] then Some "histogram"
    else None
  | [c0; c1] =>
    if dtype_in (dtype c0) [Int64; Float64]
       && dtype_in (dtype c1) [Int64; Float64]
    then Some "scatter"
    else if dtype_in (dtype c1) [Int64; Float64] && (1 <? len df)
    then Some "bar"
    else if dtype_in (dtype c1) [Int64; Float64] && (len df <=? 10)
    then Some "pie"
    else None
  | c0 :: c1 :: c2 :: _ =>
    if dtype_in (dtype c0) [Object; Category]
       && dtype_in (dtype c1) [Object; Category]
       && dtype_in (dtype c2) [Int64; Float64]
    then Some "heatmap"
    else if dtype_in (dtype c1) [Int64; Float64]
    then Some "line"
    else None
  | [] => None
  end.

End Xyz.

(** ** csv1.py: rules on the counts of number and non-number columns *)

Module Csv1.

Definition determine_chart_type (df : DataFrame) : option string :=
  let num_cols := select_number df in
  let cat_cols := select_not_number df in
  if length (columns df) =? 2 then
    if (length num_cols =? 1) && (10 <? len df) then Some "histogram"
    else if (length num_cols =? 1) && (len df <=? 10) then Some "pie"
    else if length num_cols =? 2 then Some "scatter"
    else if (length num_cols =? 1) && (length cat_cols =? 1)
    then Some "bar"
    else None
  else if 2 <=? length num_cols then
    if 2 <? length num_cols then Some "heatmap"
    else Some "line"
  else if (0 <? length cat_cols) && (0 <? length num_cols)
  then Some "box"
  else None.

End Csv1.

(** ** abc_chat.py: rules on the dtype of the second column

    [np.issubdtype(d, np.number)] converts [d] with [np.dtype] first, which
    rejects the pandas categorical dtype with a [TypeError]. *)

Module AbcChat.

Definition issubdtype_number (d : Dtype) : Exn + bool :=
  match d with
  | Category => inl TypeError
  | _ => inr (is_np_number d)
  end.

Definition determine_chart_type (df : DataFrame) : Result :=
  match columns df with
  | [c0; c1] =>
    match issubdtype_number (dtype c1) with
    | inl e => Raises e
    | inr second_is_number =>
      if second_is_number && (1 <? len df) then Returns (Some "bar")
      else if second_is_number && (len df <=? 10) then Returns (Some "pie")
      else Returns None
    end
  | c0 :: c1 :: _ :: _ =>
    match issubdtype_number (dtype c1) with
    | inl e => Raises e
    | inr second_is_number =>
      if second_is_number then Returns (Some "line") else Returns None
    end
  | _ => Returns None
  end.

End AbcChat.

(** ** DataFrames whose column labels need not be str

    pandas labels columns with integers when a frame is built without names
    ([pd.DataFrame(rows)], [pd.read_csv(..., header=None)]).  An int has no
    [lower] method: [col.lower()] raises [AttributeError] there, and the list
    comprehension [[col.lower() for col in df.columns]] raises as soon as one
    label is an int.  The labels modelled are str and int. *)

Module Labels.

Inductive Label : Type :=
| LStr (s : string)
| LInt (z : Z).

Record Column : Type := mkColumn {
  label : Label;
  dtype : Dtype;
  values : list Cell
}.

Record DataFrame : Type := mkDataFrame {
  columns : list Column;
  index_len : nat
}.

Definition rectangular (df : DataFrame) : Prop :=
  Forall (fun c => length (values c) = index_len df) (columns df).

(** [len(df)] *)
Definition len (df : DataFrame) : nat := index_len df.

(** [df.empty] *)
Definition empty (df : DataFrame) : bool :=
  (length (columns df) =? 0) || (len df =? 0).

(** [df.select_dtypes(include=names).columns] *)
Definition select_dtypes (include : list Dtype) (df : DataFrame)
  : list Column :=
  filter (fun c => dtype_in (dtype c) include) (columns df).

Inductive PyObject : Type :=
| PyDataFrame (df : DataFrame)
| PyOther.

Inductive Exn : Type :=
| ValueError (msg : string)
| AttributeError.

Inductive Result : Type :=
| Returns (v : option string)
| Raises (e : Exn).

(** [col.lower()] *)
Definition label_lower (l : Label) : Exn + string :=
  match l with
  | LStr s => inr (lower s)
  | LInt _ => inl AttributeError
  end.

(** [[col.lower() for col in labels]] *)
Fixpoint lowered (labels : list Label) : Exn + list string :=
  match labels with
  | [] => inr []
  | l :: rest =>
    match label_lower l with
    | inl e => inl e
    | inr s =>
      match lowered rest with
      | inl e => inl e
      | inr others => inr (s :: others)
      end
    end
  end.

Definition is_str (l : Label) : bool :=
  match l with
  | LStr _ => true
  | LInt _ => false
  end.

(** Every column label is a str. *)
Definition all_str (df : DataFrame) : bool :=
  forallb (fun c => is_str (label c)) (columns df).

(** A DataFrame of [Pandas], with its str labels. *)
Definition of_named (df : Pandas.DataFrame) : DataFrame :=
  {| columns :=
       map (fun c => mkColumn (LStr (Pandas.name c)) (Pandas.dtype c)
                              (Pandas.values c))
           (Pandas.columns df);
     index_len := Pandas.index_len df |}.

End Labels.

(** ** waterfall.py on DataFrames with str or int labels *)

Module WaterfallLabels.

Definition determine_chart_type (df : Labels.DataFrame) : Labels.Result :=
  let num_cols := Labels.select_dtypes [Int64; Float64] df in
  let cat_cols := Labels.select_dtypes [Object; Category] df in
  (* the rules below the line rule *)
  let below_line :=
    if 2 <=? length num_cols
    then Labels.Returns (Some "scatter")
    else if (length (Labels.columns df) =? 1) && (length num_cols =? 1)
    then Labels.Returns (Some "histogram")
    else if (1 <? length (Labels.columns df))
       && (length num_cols =? length (Labels.columns df))
    then Labels.Returns (Some "heatmap")
    else if 3 <=? length num_cols
    then Labels.Returns (Some "bubble")
    else if (2 <? length (Labels.columns df)) && (1 <? length num_cols)
       && (length cat_cols =? 1)
    then Labels.Returns (Some "radar")
    else if ((length (Labels.columns df) =? 2) && (length num_cols =? 1)
             && (length cat_cols =? 1))
         || ((2 <? length (Labels.columns df)) && (0 <? length cat_cols)
             && (0 <? length num_cols))
    then Labels.Returns (Some "bar")
    else if ((length (Labels.columns df) =? 2) && (length num_cols =? 1)
             && (length cat_cols =? 1))
         || ((2 <? length (Labels.columns df)) && (0 <? length num_cols))
    then Labels.Returns (Some "area")
    else if (length (Labels.columns df) =? 2) && (length num_cols =? 1)
       && (length cat_cols =? 1)
    then Labels.Returns (Some "dot")
    else if (length (Labels.columns df) =? 2) && (length num_cols =? 1)
       && (length cat_cols =? 1)
    then Labels.Returns (Some "treemap")
    else if (length (Labels.columns df) =? 2) && (length num_cols =? 1)
       && (length cat_cols =? 1) && (Labels.len df <=? 5)
    then Labels.Returns (Some "gauge")
    else Labels.Returns None in
  if (length (Labels.columns df) =? 2) && (length num_cols =? 1)
     && (length cat_cols =? 1) && (Labels.len df <=? 10)
  then Labels.Returns (Some "pie")
  else if (2 <=? length (Labels.columns df)) && (0 <? length num_cols)
  then
    match Labels.lowered (map Labels.label (Labels.columns df)) with
    | inl e => Labels.Raises e
    | inr time_columns =>
      if any (fun word => str_in word time_columns)
             ["month"; "year"; "date"; "time"; "day"]
      then Labels.Returns (Some "line")
      else below_line
    end
  else below_line.

End WaterfallLabels.

(** ** str.py on DataFrames with str or int labels *)

Module StrLabels.

Definition determine_chart_type (obj : Labels.PyObject) : Labels.Result :=
  match obj with
  | Labels.PyOther =>
    Labels.Raises (Labels.ValueError "Input must be a pandas DataFrame.")
  | Labels.PyDataFrame df =>
    if Labels.empty df
    then Labels.Raises (Labels.ValueError "Input DataFrame is empty.")
    else
    let num_cols := Labels.select_dtypes [Int64; Float64] df in
    let cat_cols := Labels.select_dtypes [Object; Category] df in
    (* the rules below the line rule *)
    let below_line :=
      if 2 <=? length num_cols
      then Labels.Returns (Some "scatter")
      else if (length (Labels.columns df) =? 1) && (length num_cols =? 1)
      then Labels.Returns (Some "histogram")
      else if (1 <? length (Labels.columns df))
         && (length num_cols =? length (Labels.columns df))
      then Labels.Returns (Some "heatmap")
      else if 3 <=? length num_cols
      then Labels.Returns (Some "bubble")
      else if (2 <? length (Labels.columns df)) && (1 <? length num_cols)
         && (length cat_cols =? 1)
      then Labels.Returns (Some "radar")
      else if ((length (Labels.columns df) =? 2) && (length num_cols =? 1)
               && (length cat_cols =? 1))
           || ((2 <? length (Labels.columns df)) && (0 <? length cat_cols)
               && (0 <? length num_cols))
      then Labels.Returns (Some "bar")
      else if ((length (Labels.columns df) =? 2) && (length num_cols =? 1)
               && (length cat_cols =? 1))
           || ((2 <? length (Labels.columns df)) && (0 <? length num_cols))
      then Labels.Returns (Some "area")
      else if (length (Labels.columns df) =? 2) && (length num_cols =? 1)
         && (length cat_cols =? 1)
      then Labels.Returns (Some "dot")
      else if (length (Labels.columns df) =? 2) && (length num_cols =? 1)
         && (length cat_cols =? 1)
      then Labels.Returns (Some "treemap")
      else if (length (Labels.columns df) =? 2) && (length num_cols =? 1)
         && (length cat_cols =? 1) && (Labels.len df <=? 5)
      then Labels.Returns (Some "gauge")
      else Labels.Returns None in
    if (length (Labels.columns df) =? 2) && (length num_cols =? 1)
       && (length cat_cols =? 1) && (Labels.len df <=? 10)
    then Labels.Returns (Some "pie")
    else if (2 <=? length (Labels.columns df)) && (0 <? length num_cols)
    then
      match Labels.lowered (map Labels.label (Labels.columns df)) with
      | inl e => Labels.Raises e
      | inr time_columns =>
        if any (fun word => str_in word time_columns)
               ["month"; "year"; "date"; "time"; "day"]
        then Labels.Returns (Some "line")
        else below_line
      end
    else below_line
  end.

End StrLabels.

(** ** generate_chart: the calls issued to plotly and streamlit

    The renderers are modelled up to the library boundary.  A figure is the
    [px] call that builds it (function, data argument, keyword arguments)
    with the [update_*] calls made on it afterwards, and the effect of a run
    is the list of [st.write] and [st.plotly_chart] calls, or the exception
    that ends it.  The function's own code raises [IndexError] from
    [df.columns[i]] and [UnboundLocalError] from reading [fig] when no branch
    has assigned it.  What pandas, plotly and streamlit do with a call is
    left open in a [Library]: whether plotly.express has the function that
    is looked up ([AttributeError] if not), and whether a call returns or
    raises ([LibraryError]).  Python's order is kept: [px.f] is looked up
    before the arguments of the call are evaluated, and the call is made
    after them. *)

Module Render.

Inductive Failure : Type :=
| IndexError
| UnboundLocalError
| AttributeError
| LibraryError.

Definition M (A : Type) : Type := (Failure + A)%type.

Definition ret {A : Type} (a : A) : M A := inr a.

Definition bind {A B : Type} (m : M A) (k : A -> M B) : M B :=
  match m with
  | inl e => inl e
  | inr a => k a
  end.

Notation "x <- m ;; k" := (bind m (fun x => k))
  (at level 61, m at next level, right associativity).

(** [df.columns[i]] *)
Definition column (df : DataFrame) (i : nat) : M string :=
  match nth_error (columns df) i with
  | Some c => ret (name c)
  | None => inl IndexError
  end.

(** [value if value else default] for a [str] or [None] *)
Definition str_or (value : option string) (default : string) : string :=
  match value with
  | None => default
  | Some EmptyString => default
  | Some s => s
  end.

(** [value if value else default] for an [int] or [None] *)
Definition int_or (value : option Z) (default : Z) : Z :=
  match value with
  | None => default
  | Some 0%Z => default
  | Some z => z
  end.

(** The first positional argument of a [px] call. *)
Inductive Data : Type :=
| Frame
| PivotTable (index columns values : string)
| CorrMatrix (labels : list string).

Inductive Arg : Type :=
| AStr (s : string)
| ABool (b : bool)
| AInt (z : Z)
| ALabels (labels : list string).

Definition Kwargs : Type := list (string * Arg).

Record Figure : Type := mkFigure {
  px_function : string;
  data : Data;
  kwargs : Kwargs;
  updates : list (string * Kwargs)
}.

(** The call [px.<function>(data, ...)] with its keyword arguments. *)
Definition px (function : string) (d : Data) (kw : Kwargs) : Figure :=
  mkFigure function d kw [].

(** [fig.<method>(...)] with its keyword arguments *)
Definition update (method : string) (kw : Kwargs) (fig : Figure) : Figure :=
  mkFigure (px_function fig) (data fig) (kwargs fig)
           (updates fig ++ [(method, kw)])%list.

Inductive Event : Type :=
| StWrite (msg : string)
| StPlotlyChart (fig : Figure) (use_container_width : bool).

Definition Outcome : Type := M (list Event).

(** What the libraries do, left open. *)
Record Library : Type := mkLibrary {
  (** plotly.express has a function of this name *)
  px_has : string -> bool;
  (** [df.pivot_table(...)] or [df.select_dtypes(...).corr()] returns *)
  data_returns : DataFrame -> Data -> bool;
  (** the [px] call returns the figure *)
  px_returns : DataFrame -> Figure -> bool;
  (** the [update_*] calls on the figure and [st.plotly_chart] return *)
  display_returns : Figure -> bool
}.

(** [px.<function>]: the attribute lookup *)
Definition px_attr (lib : Library) (function : string) : M string :=
  if px_has lib function then ret function else inl AttributeError.

(** Evaluating the data argument of a [px] call. *)
Definition evaluate (lib : Library) (df : DataFrame) (d : Data) : M Data :=
  match d with
  | Frame => ret d
  | _ => if data_returns lib df d then ret d else inl LibraryError
  end.

(** Making the [px] call. *)
Definition px_call (lib : Library) (df : DataFrame) (fig : Figure)
  : M Figure :=
  if px_returns lib df fig then ret fig else inl LibraryError.

(** The two statements that end every renderer but the one of waterfall.py:
    [fig.update_layout(plot_bgcolor="rgba(0,0,0,0)")] and
    [st.plotly_chart(fig, use_container_width=True)]; [fig] is [None] here
    when no branch has bound it. *)
Definition show (lib : Library) (fig : option Figure) : Outcome :=
  match fig with
  | None => inl UnboundLocalError
  | Some f =>
    let shown :=
      update "update_layout" [("plot_bgcolor", AStr "rgba(0,0,0,0)")] f in
    if display_returns lib shown then ret [StPlotlyChart shown true]
    else inl LibraryError
  end.

Definition template : string * Arg := ("template", AStr "plotly_white").

(** [chart_type == 'kind'], where [chart_type] may be [None] *)
Definition is_kind (chart_type : option string) (kind : string) : bool :=
  match chart_type with
  | Some s => String.eqb s kind
  | None => false
  end.

End Render.
Import Render.

(** ** pqr.py: generate_chart *)

Module PqrChart.

Definition generate_chart (lib : Library) (df : DataFrame)
  (chart_type : option string)
  (title x_axis_label y_axis_label color_scale : option string)
  (bin_size : option Z) : Outcome :=
  match chart_type with
  | None => ret [StWrite "No suitable chart type determined for this data."]
  | Some kind =>
    if empty df then ret [StWrite "The input DataFrame is empty."]
    else
    fig <-
      (if String.eqb kind "bar" then
         px_bar <- px_attr lib "bar" ;;
         c0 <- column df 0 ;; c1 <- column df 1 ;;
         fig <- px_call lib df
           (px px_bar Frame
               [("x", AStr c0); ("y", AStr c1);
                ("title", AStr (str_or title (c0 ++ " vs. " ++ c1)%string));
                template; ("color", AStr c0)]) ;;
         ret (Some
           (update "update_yaxes" [("title", AStr (str_or y_axis_label c1))]
           (update "update_xaxes" [("title", AStr (str_or x_axis_label c0))]
                   fig)))
       else if String.eqb kind "pie" then
         px_pie <- px_attr lib "pie" ;;
         c0 <- column df 0 ;; c1 <- column df 1 ;;
         fig <- px_call lib df
           (px px_pie Frame
               [("names", AStr c0); ("values", AStr c1);
                ("title", AStr (str_or title ("Distribution of " ++ c0)%string));
                template]) ;;
         ret (Some fig)
       else if String.eqb kind "line" then
         px_line <- px_attr lib "line" ;;
         c0 <- column df 0 ;; c1 <- column df 1 ;;
         fig <- px_call lib df
           (px px_line Frame
               [("x", AStr c0); ("y", AStr c1);
                ("title", AStr (str_or title (c1 ++ " Over " ++ c0)%string));
                template; ("markers", ABool true)]) ;;
         ret (Some
           (update "update_yaxes" [("title", AStr (str_or y_axis_label c1))]
           (update "update_xaxes" [("title", AStr (str_or x_axis_label c0))]
                   fig)))
       else if String.eqb kind "scatter" then
         px_scatter <- px_attr lib "scatter" ;;
         c0 <- column df 0 ;; c1 <- column df 1 ;;
         fig <- px_call lib df
           (px px_scatter Frame
               [("x", AStr c0); ("y", AStr c1);
                ("title", AStr (str_or title (c0 ++ " vs. " ++ c1)%string));
                template]) ;;
         ret (Some
           (update "update_yaxes" [("title", AStr (str_or y_axis_label c1))]
           (update "update_xaxes" [("title", AStr (str_or x_axis_label c0))]
                   fig)))
       else if String.eqb kind "heatmap" then
         px_imshow <- px_attr lib "imshow" ;;
         c0 <- column df 0 ;; c1 <- column df 1 ;; c2 <- column df 2 ;;
         pivot <- evaluate lib df (PivotTable c0 c1 c2) ;;
         fig <- px_call lib df
           (px px_imshow pivot
               [("text_auto", ABool true);
                ("title",
                 AStr (str_or title
                         ("Heatmap of " ++ c0 ++ " vs. " ++ c1)%string));
                template;
                ("color_continuous_scale",
                 AStr (str_or color_scale "Viridis"))]) ;;
         ret (Some fig)
       else if String.eqb kind "histogram" then
         px_histogram <- px_attr lib "histogram" ;;
         c0 <- column df 0 ;;
         fig <- px_call lib df
           (px px_histogram Frame
               [("x", AStr c0);
                ("title", AStr (str_or title ("Histogram of " ++ c0)%string));
                template; ("nbins", AInt (int_or bin_size 10))]) ;;
         ret (Some
           (update "update_xaxes" [("title", AStr (str_or x_axis_label c0))]
                   fig))
       else ret None) ;;
    show lib fig
  end.

End PqrChart.

(** ** xyz.py: generate_chart *)

Module XyzChart.

Definition generate_chart (lib : Library) (df : DataFrame)
  (chart_type : option string) : Outcome :=
  match chart_type with
  | None => ret [StWrite "No suitable chart type determined for this data."]
  | Some kind =>
    if empty df then ret [StWrite "The input DataFrame is empty."]
    else if String.eqb kind "bar" then
      px_bar <- px_attr lib "bar" ;;
      c0 <- column df 0 ;; c1 <- column df 1 ;;
      fig <- px_call lib df
        (px px_bar Frame
            [("x", AStr c0); ("y", AStr c1);
             ("title", AStr (c0 ++ " vs. " ++ c1)%string);
             template; ("color", AStr c0)]) ;;
      show lib (Some fig)
    else if String.eqb kind "pie" then
      px_pie <- px_attr lib "pie" ;;
      c0 <- column df 0 ;; c1 <- column df 1 ;;
      fig <- px_call lib df
        (px px_pie Frame
            [("names", AStr c0); ("values", AStr c1);
             ("title", AStr ("Distribution of " ++ c0)%string); template]) ;;
      show lib (Some fig)
    else if String.eqb kind "line" then
      px_line <- px_attr lib "line" ;;
      c0 <- column df 0 ;; c1 <- column df 1 ;;
      fig <- px_call lib df
        (px px_line Frame
            [("x", AStr c0); ("y", AStr c1);
             ("title", AStr (c1 ++ " Over " ++ c0)%string);
             template; ("markers", ABool true)]) ;;
      show lib (Some fig)
    else if String.eqb kind "scatter" then
      px_scatter <- px_attr lib "scatter" ;;
      c0 <- column df 0 ;; c1 <- column df 1 ;;
      fig <- px_call lib df
        (px px_scatter Frame
            [("x", AStr c0); ("y", AStr c1);
             ("title", AStr (c0 ++ " vs. " ++ c1)%string); template]) ;;
      show lib (Some fig)
    else if String.eqb kind "heatmap" then
      px_imshow <- px_attr lib "imshow" ;;
      c0 <- column df 0 ;; c1 <- column df 1 ;; c2 <- column df 2 ;;
      pivot <- evaluate lib df (PivotTable c0 c1 c2) ;;
      fig <- px_call lib df
        (px px_imshow pivot
            [("text_auto", ABool true);
             ("title", AStr ("Heatmap of " ++ c0 ++ " vs. " ++ c1)%string);
             template]) ;;
      show lib (Some fig)
    else if String.eqb kind "histogram" then
      px_histogram <- px_attr lib "histogram" ;;
      c0 <- column df 0 ;;
      fig <- px_call lib df
        (px px_histogram Frame
            [("x", AStr c0);
             ("title", AStr ("Histogram of " ++ c0)%string); template]) ;;
      show lib (Some fig)
    else ret [StWrite "Unsupported chart type."]
  end.

End XyzChart.

(** ** abc_chat.py: generate_chart *)

Module AbcChatChart.

Definition generate_chart (lib : Library) (df : DataFrame)
  (chart_type : option string) : Outcome :=
  if is_kind chart_type "bar" then
    px_bar <- px_attr lib "bar" ;;
    c0 <- column df 0 ;; c1 <- column df 1 ;;
    fig <- px_call lib df
      (px px_bar Frame
          [("x", AStr c0); ("y", AStr c1);
           ("title", AStr (c0 ++ " vs. " ++ c1)%string); template]) ;;
    show lib (Some fig)
  else if is_kind chart_type "pie" then
    px_pie <- px_attr lib "pie" ;;
    c0 <- column df 0 ;; c1 <- column df 1 ;;
    fig <- px_call lib df
      (px px_pie Frame
          [("names", AStr c0); ("values", AStr c1);
           ("title", AStr ("Distribution of " ++ c0)%string); template]) ;;
    show lib (Some fig)
  else if is_kind chart_type "line" then
    px_line <- px_attr lib "line" ;;
    c0 <- column df 0 ;; c1 <- column df 1 ;;
    fig <- px_call lib df
      (px px_line Frame
          [("x", AStr c0); ("y", AStr c1);
           ("title", AStr (c1 ++ " Over " ++ c0)%string);
           template; ("markers", ABool true)]) ;;
    show lib (Some fig)
  else ret [StWrite "No suitable chart type determined for this data."].

End AbcChatChart.

(** ** csv1.py: generate_chart *)

Module Csv1Chart.

Definition generate_chart (lib : Library) (df : DataFrame)
  (chart_type : option string) : Outcome :=
  if is_kind chart_type "bar" then
    px_bar <- px_attr lib "bar" ;;
    c0 <- column df 0 ;; c1 <- column df 1 ;;
    fig <- px_call lib df
      (px px_bar Frame
          [("x", AStr c0); ("y", AStr c1);
           ("title", AStr (c0 ++ " vs. " ++ c1)%string); template]) ;;
    show lib (Some fig)
  else if is_kind chart_type "pie" then
    px_pie <- px_attr lib "pie" ;;
    c0 <- column df 0 ;; c1 <- column df 1 ;;
    fig <- px_call lib df
      (px px_pie Frame
          [("names", AStr c0); ("values", AStr c1);
           ("title", AStr ("Distribution of " ++ c0)%string); template]) ;;
    show lib (Some fig)
  else if is_kind chart_type "line" then
    px_line <- px_attr lib "line" ;;
    c0 <- column df 0 ;; c1 <- column df 1 ;;
    fig <- px_call lib df
      (px px_line Frame
          [("x", AStr c0); ("y", AStr c1);
           ("title", AStr (c1 ++ " Over " ++ c0)%string);
           template; ("markers", ABool true)]) ;;
    show lib (Some fig)
  else if is_kind chart_type "scatter" then
    px_scatter <- px_attr lib "scatter" ;;
    c0 <- column df 0 ;; c1 <- column df 1 ;;
    fig <- px_call lib df
      (px px_scatter Frame
          [("x", AStr c0); ("y", AStr c1);
           ("title", AStr ("Scatter Plot of " ++ c0 ++ " vs. " ++ c1)%string);
           template]) ;;
    show lib (Some fig)
  else if is_kind chart_type "histogram" then
    px_histogram <- px_attr lib "histogram" ;;
    c0 <- column df 0 ;;
    fig <- px_call lib df
      (px px_histogram Frame
          [("x", AStr c0);
           ("title", AStr ("Distribution of " ++ c0)%string); template]) ;;
    show lib (Some fig)
  else if is_kind chart_type "box" then
    px_box <- px_attr lib "box" ;;
    c0 <- column df 0 ;; c1 <- column df 1 ;;
    fig <- px_call lib df
      (px px_box Frame
          [("x", AStr c0); ("y", AStr c1);
           ("title", AStr ("Box Plot of " ++ c0 ++ " vs. " ++ c1)%string);
           template]) ;;
    show lib (Some fig)
  else if is_kind chart_type "heatmap" then
    let corr_labels := map name (select_number df) in
    corr_matrix <- evaluate lib df (CorrMatrix corr_labels) ;;
    px_imshow <- px_attr lib "imshow" ;;
    fig <- px_call lib df
      (px px_imshow corr_matrix
          [("x", ALabels corr_labels); ("y", ALabels corr_labels);
           ("color_continuous_scale", AStr "Viridis");
           ("title", AStr "Heatmap of Numerical Features")]) ;;
    show lib (Some fig)
  else ret [StWrite "No suitable chart type determined for this data."].

End Csv1Chart.

(** ** str.py: generate_chart *)

Module StrChart.

(** The branches that plot column 0 against column 1 and label both axes:
    [px.<function>(df, x=..., y=..., title=..., template=...)] with the
    default title ["<Name> of <col0> vs. <col1>"] (the text of these
    branches differs in [function] and [Name] only). *)
Definition xy_chart (lib : Library) (df : DataFrame)
  (function title_name : string)
  (title x_axis_label y_axis_label : option string) : M (option Figure) :=
  px_function <- px_attr lib function ;;
  c0 <- column df 0 ;; c1 <- column df 1 ;;
  fig <- px_call lib df
    (px px_function Frame
        [("x", AStr c0); ("y", AStr c1);
         ("title",
          AStr (str_or title
                  (title_name ++ " of " ++ c0 ++ " vs. " ++ c1)%string));
         template]) ;;
  ret (Some
    (update "update_yaxes" [("title", AStr (str_or y_axis_label c1))]
    (update "update_xaxes" [("title", AStr (str_or x_axis_label c0))] fig))).

(** The branches that pass three columns under keyword names:
    [px.<function>(df, <k0>=col0, <k1>=col1, <k2>=col2, title=...,
    template=...)] with the default title ["<Name> of <col0> vs. <col1>"]. *)
Definition three_column_chart (lib : Library) (df : DataFrame)
  (function title_name k0 k1 k2 : string) (title : option string)
  : M (option Figure) :=
  px_function <- px_attr lib function ;;
  c0 <- column df 0 ;; c1 <- column df 1 ;; c2 <- column df 2 ;;
  fig <- px_call lib df
    (px px_function Frame
        [(k0, AStr c0); (k1, AStr c1); (k2, AStr c2);
         ("title",
          AStr (str_or title
                  (title_name ++ " of " ++ c0 ++ " vs. " ++ c1)%string));
         template]) ;;
  ret (Some fig).

Definition generate_chart (lib : Library) (df : DataFrame)
  (chart_type : option string)
  (title x_axis_label y_axis_label color_scale : option string)
  (bin_size : option Z) : Outcome :=
  match chart_type with
  | None => ret [StWrite "No suitable chart type determined for this data."]
  | Some kind =>
    if empty df then ret [StWrite "The input DataFrame is empty."]
    else
    fig <-
      (if String.eqb kind "bar" then
         px_bar <- px_attr lib "bar" ;;
         c0 <- column df 0 ;; c1 <- column df 1 ;;
         fig <- px_call lib df
           (px px_bar Frame
               [("x", AStr c0); ("y", AStr c1);
                ("title", AStr (str_or title (c0 ++ " vs. " ++ c1)%string));
                template; ("color", AStr c0)]) ;;
         ret (Some
           (update "update_yaxes" [("title", AStr (str_or y_axis_label c1))]
           (update "update_xaxes" [("title", AStr (str_or x_axis_label c0))]
                   fig)))
       else if String.eqb kind "pie" then
         px_pie <- px_attr lib "pie" ;;
         c0 <- column df 0 ;; c1 <- column df 1 ;;
         fig <- px_call lib df
           (px px_pie Frame
               [("names", AStr c0); ("values", AStr c1);
                ("title", AStr (str_or title ("Distribution of " ++ c0)%string));
                template]) ;;
         ret (Some fig)
       else if String.eqb kind "line" then
         px_line <- px_attr lib "line" ;;
         c0 <- column df 0 ;; c1 <- column df 1 ;;
         fig <- px_call lib df
           (px px_line Frame
               [("x", AStr c0); ("y", AStr c1);
                ("title", AStr (str_or title (c1 ++ " Over " ++ c0)%string));
                template; ("markers", ABool true)]) ;;
         ret (Some
           (update "update_yaxes" [("title", AStr (str_or y_axis_label c1))]
           (update "update_xaxes" [("title", AStr (str_or x_axis_label c0))]
                   fig)))
       else if String.eqb kind "scatter" then
         px_scatter <- px_attr lib "scatter" ;;
         c0 <- column df 0 ;; c1 <- column df 1 ;;
         fig <- px_call lib df
           (px px_scatter Frame
               [("x", AStr c0); ("y", AStr c1);
                ("title", AStr (str_or title (c0 ++ " vs. " ++ c1)%string));
                template]) ;;
         ret (Some
           (update "update_yaxes" [("title", AStr (str_or y_axis_label c1))]
           (update "update_xaxes" [("title", AStr (str_or x_axis_label c0))]
                   fig)))
       else if String.eqb kind "heatmap" then
         px_imshow <- px_attr lib "imshow" ;;
         c0 <- column df 0 ;; c1 <- column df 1 ;; c2 <- column df 2 ;;
         pivot <- evaluate lib df (PivotTable c0 c1 c2) ;;
         fig <- px_call lib df
           (px px_imshow pivot
               [("text_auto", ABool true);
                ("title",
                 AStr (str_or title
                         ("Heatmap of " ++ c0 ++ " vs. " ++ c1)%string));
                template;
                ("color_continuous_scale",
                 AStr (str_or color_scale "Viridis"))]) ;;
         ret (Some fig)
       else if String.eqb kind "histogram" then
         px_histogram <- px_attr lib "histogram" ;;
         c0 <- column df 0 ;;
         fig <- px_call lib df
           (px px_histogram Frame
               [("x", AStr c0);
                ("title", AStr (str_or title ("Histogram of " ++ c0)%string));
                template; ("nbins", AInt (int_or bin_size 10))]) ;;
         ret (Some
           (update "update_xaxes" [("title", AStr (str_or x_axis_label c0))]
                   fig))
       else if String.eqb kind "boxplot" then
         xy_chart lib df "box" "Boxplot" title x_axis_label y_axis_label
       else if String.eqb kind "violinplot" then
         xy_chart lib df "violin" "Violinplot" title x_axis_label y_axis_label
       else if String.eqb kind "densityplot" then
         xy_chart lib df "density_heatmap" "Densityplot"
                  title x_axis_label y_axis_label
       else if String.eqb kind "treemap" then
         three_column_chart lib df "treemap" "Treemap"
                            "names" "parents" "values" title
       else if String.eqb kind "sunburst" then
         three_column_chart lib df "sunburst" "Sunburst"
                            "names" "parents" "values" title
       else if String.eqb kind "waterfall" then
         xy_chart lib df "waterfall" "Waterfall" title x_axis_label y_axis_label
       else if String.eqb kind "funnel" then
         xy_chart lib df "funnel" "Funnel" title x_axis_label y_axis_label
       else if String.eqb kind "sankey" then
         three_column_chart lib df "sankey" "Sankey"
                            "source" "target" "value" title
       else ret None) ;;
    show lib fig
  end.

(** The branch of [generate_chart] for a chart type: the [px] function it
    looks up and the number of leading columns it reads; [None] when there
    is no branch for the chart type. *)
Definition branch (kind : string) : option (string * nat) :=
  if String.eqb kind "bar" then Some ("bar", 2)
  else if String.eqb kind "pie" then Some ("pie", 2)
  else if String.eqb kind "line" then Some ("line", 2)
  else if String.eqb kind "scatter" then Some ("scatter", 2)
  else if String.eqb kind "heatmap" then Some ("imshow", 3)
  else if String.eqb kind "histogram" then Some ("histogram", 1)
  else if String.eqb kind "boxplot" then Some ("box", 2)
  else if String.eqb kind "violinplot" then Some ("violin", 2)
  else if String.eqb kind "densityplot" then Some ("density_heatmap", 2)
  else if String.eqb kind "treemap" then Some ("treemap", 3)
  else if String.eqb kind "sunburst" then Some ("sunburst", 3)
  else if String.eqb kind "waterfall" then Some ("waterfall", 2)
  else if String.eqb kind "funnel" then Some ("funnel", 2)
  else if String.eqb kind "sankey" then Some ("sankey", 3)
  else None.

End StrChart.

(** ** The outcomes that are up to the libraries *)

(** Every call into pandas, plotly and streamlit returns. *)
Definition returns_always (lib : Library) : Prop :=
  (forall df d, data_returns lib df d = true)
  /\ (forall df fig, px_returns lib df fig = true)
  /\ (forall fig, display_returns lib fig = true).

(** A run got past the function's own code to the [px] function
    [function]: it ends with [AttributeError] when plotly.express has no such
    function, and otherwise with one figure built by that function handed to
    [st.plotly_chart], unless a library call raises. *)
Definition up_to_plotly (lib : Library) (function : string) (out : Outcome)
  : Prop :=
  (if px_has lib function
   then out = inl LibraryError
        \/ exists fig, px_function fig = function
                       /\ out = inr [StPlotlyChart fig true]
   else out = inl AttributeError)
  /\ (returns_always lib -> out <> inl LibraryError).

(** A library that has every function and never raises. *)
Definition obliging : Library :=
  {| px_has := fun _ => true;
     data_returns := fun _ _ => true;
     px_returns := fun _ _ => true;
     display_returns := fun _ => true |}.

(** plotly.express without [waterfall] and [sankey], which it does not
    have, and otherwise as [obliging]. *)
Definition no_waterfall_no_sankey : Library :=
  {| px_has := fun f => negb (String.eqb f "waterfall" || String.eqb f "sankey");
     data_returns := fun _ _ => true;
     px_returns := fun _ _ => true;
     display_returns := fun _ => true |}.

(** ** The chart catalog and the schema descriptor of the specification *)

(** The fixed catalog of chart kinds (specification, section 1). *)
Definition catalog : list string :=
  ["bar"; "pie"; "line"; "scatter"; "histogram"; "heatmap"; "box"; "violin";
   "bubble"; "radar"; "area"; "treemap"; "sunburst"; "waterfall"; "funnel";
   "sankey"; "gauge"; "dot"; "density plot"].

(** A value of the set {catalog kinds, none}. *)
Definition chart_kind_or_none (v : option string) : Prop :=
  match v with
  | None => True
  | Some kind => In kind catalog
  end.

(** Positions, counted from [i], of the elements of [l] that satisfy [p]. *)
Fixpoint indices_from {A : Type} (p : A -> bool) (i : nat) (l : list A)
  : list nat :=
  match l with
  | [] => []
  | x :: rest =>
    if p x then i :: indices_from p (S i) rest
    else indices_from p (S i) rest
  end.

(** The schema descriptor (specification, section 3), holding what the rules
    of str.py and waterfall.py read from a DataFrame: [len(df.columns)], the
    positions of [num_cols] and of [cat_cols], [len(df)] and the lower-cased
    column names. *)
Record SchemaDescriptor : Type := mkSchema {
  column_count : nat;
  numeric_columns : list nat;
  categorical_columns : list nat;
  row_count : nat;
  column_names_lowercased : list string
}.

Definition extract (df : DataFrame) : SchemaDescriptor :=
  {| column_count := length (columns df);
     numeric_columns :=
       indices_from (fun c => dtype_in (dtype c) [Int64; Float64]) 0
                    (columns df);
     categorical_columns :=
       indices_from (fun c => dtype_in (dtype c) [Object; Category]) 0
                    (columns df);
     row_count := len df;
     column_names_lowercased := map (fun col => lower (name col)) (columns df)
  |}.

(** ** The rules of str.py and waterfall.py as an ordered decision list *)

Definition Rule : Type := (DataFrame -> bool) * string.

Definition num_count (df : DataFrame) : nat :=
  length (select_dtypes [Int64; Float64] df).

Definition cat_count (df : DataFrame) : nat :=
  length (select_dtypes [Object; Category] df).

Definition one_cat_one_num (df : DataFrame) : bool :=
  (length (columns df) =? 2) && (num_count df =? 1) && (cat_count df =? 1).

Definition has_time_column (df : DataFrame) : bool :=
  any (fun word => str_in word (map (fun col => lower (name col)) (columns df)))
      ["month"; "year"; "date"; "time"; "day"].

Definition pie_rule (df : DataFrame) : bool :=
  one_cat_one_num df && (len df <=? 10).
Definition line_rule (df : DataFrame) : bool :=
  (2 <=? length (columns df)) && (0 <? num_count df) && has_time_column df.
Definition scatter_rule (df : DataFrame) : bool := 2 <=? num_count df.
Definition histogram_rule (df : DataFrame) : bool :=
  (length (columns df) =? 1) && (num_count df =? 1).
Definition heatmap_rule (df : DataFrame) : bool :=
  (1 <? length (columns df)) && (num_count df =? length (columns df)).
Definition bubble_rule (df : DataFrame) : bool := 3 <=? num_count df.
Definition radar_rule (df : DataFrame) : bool :=
  (2 <? length (columns df)) && (1 <? num_count df) && (cat_count df =? 1).
Definition bar_rule (df : DataFrame) : bool :=
  one_cat_one_num df
  || ((2 <? length (columns df)) && (0 <? cat_count df) && (0 <? num_count df)).
Definition area_rule (df : DataFrame) : bool :=
  one_cat_one_num df || ((2 <? length (columns df)) && (0 <? num_count df)).
Definition dot_rule (df : DataFrame) : bool := one_cat_one_num df.
Definition treemap_rule (df : DataFrame) : bool := one_cat_one_num df.
Definition gauge_rule (df : DataFrame) : bool :=
  one_cat_one_num df && (len df <=? 5).

(** The rules in source order. *)
Definition canonical_rules : list Rule :=
  [ (pie_rule, "pie"); (line_rule, "line"); (scatter_rule, "scatter");
    (histogram_rule, "histogram"); (heatmap_rule, "heatmap");
    (bubble_rule, "bubble"); (radar_rule, "radar"); (bar_rule, "bar");
    (area_rule, "area"); (dot_rule, "dot"); (treemap_rule, "treemap");
    (gauge_rule, "gauge") ].

(** First match wins; no match gives [None]. *)
Fixpoint first_match (rules : list Rule) (df : DataFrame) : option string :=
  match rules with
  | [] => None
  | (matches, kind) :: later =>
    if matches df then Some kind else first_match later df
  end.

(** Rule number [i] (from 0) of the list matches [df]. *)
Definition rule_matches (rules : list Rule) (i : nat) (df : DataFrame) : bool :=
  match nth_error rules i with
  | Some (matches, _) => matches df
  | None => false
  end.

(** The kind of rule number [i]. *)
Definition rule_kind (rules : list Rule) (i : nat) : option string :=
  option_map snd (nth_error rules i).

(** ** Sample datasets (the example data of the source files) *)

Definition text_cells (l : list string) : list Cell := map CStr l.
Definition int_cells (l : list Z) : list Cell := map CInt l.

(** [{'Category': ['A'..'E'], 'Value': [10..50]}] *)
Definition df_category_value : DataFrame :=
  {| columns :=
       [ mkColumn "Category" Object (text_cells ["A"; "B"; "C"; "D"; "E"]);
         mkColumn "Value" Int64 (int_cells [10; 20; 30; 40; 50]%Z) ];
     index_len := 5 |}.

(** [{'Category1': [...], 'Category2': [...], 'Value': [...]}] *)
Definition df_two_categories : DataFrame :=
  {| columns :=
       [ mkColumn "Category1" Object (text_cells ["A"; "B"; "C"; "D"; "E"]);
         mkColumn "Category2" Object (text_cells ["X"; "Y"; "Z"; "W"; "V"]);
         mkColumn "Value" Int64 (int_cells [10; 20; 30; 40; 50]%Z) ];
     index_len := 5 |}.

(** [{'Value': [10..50]}] *)
Definition df_value : DataFrame :=
  {| columns := [ mkColumn "Value" Int64 (int_cells [10; 20; 30; 40; 50]%Z) ];
     index_len := 5 |}.

(** The columns of [df_category_value] with no row. *)
Definition df_no_rows : DataFrame :=
  {| columns := [ mkColumn "Category" Object []; mkColumn "Value" Int64 [] ];
     index_len := 0 |}.

(** [{'Month': ['Jan', 'Feb', 'Mar'], 'Sales': [100, 120, 90]}] *)
Definition df_month_sales : DataFrame :=
  {| columns :=
       [ mkColumn "Month" Object (text_cells ["Jan"; "Feb"; "Mar"]);
         mkColumn "Sales" Int64 (int_cells [100; 120; 90]%Z) ];
     index_len := 3 |}.

(** [n] rows of a text column and a number column with the given labels. *)
Definition df_text_number (label0 label1 : string) (n : nat) : DataFrame :=
  {| columns :=
       [ mkColumn label0 Object (repeat (CStr "x") n);
         mkColumn label1 Int64 (repeat (CInt 1%Z) n) ];
     index_len := n |}.

(** [df_category_value] with other magnitudes in the cells. *)
Definition df_category_value_scaled : DataFrame :=
  {| columns :=
       [ mkColumn "Category" Object (text_cells ["V"; "W"; "X"; "Y"; "Z"]);
         mkColumn "Value" Int64
                  (int_cells [1000; -2000; 3000; 400000; 5]%Z) ];
     index_len := 5 |}.

(** Two text columns, three rows. *)
Definition df_two_text : DataFrame :=
  {| columns :=
       [ mkColumn "First" Object (text_cells ["a"; "b"; "c"]);
         mkColumn "Second" Object (text_cells ["x"; "y"; "z"]) ];
     index_len := 3 |}.

(** Two text columns, no row. *)
Definition df_two_text_no_rows : DataFrame :=
  {| columns := [ mkColumn "First" Object []; mkColumn "Second" Object [] ];
     index_len := 0 |}.

(** A text column [Month] and two number columns, no row. *)
Definition df_month_no_rows : DataFrame :=
  {| columns :=
       [ mkColumn "Month" Object []; mkColumn "Sales" Int64 [];
         mkColumn "Cost" Int64 [] ];
     index_len := 0 |}.

(** Three number columns, two rows. *)
Definition df_three_numbers : DataFrame :=
  {| columns :=
       [ mkColumn "X" Int64 (int_cells [1; 2]%Z);
         mkColumn "Y" Int64 (int_cells [2; 4]%Z);
         mkColumn "Z" Float64 [CFloat 0%Z; CFloat 4607182418800017408%Z] ];
     index_len := 2 |}.

(** A number column and two boolean columns, two rows. *)
Definition df_number_two_flags : DataFrame :=
  {| columns :=
       [ mkColumn "Value" Int64 (int_cells [1; 2]%Z);
         mkColumn "Seen" Bool [CBool true; CBool false];
         mkColumn "Kept" Bool [CBool false; CBool false] ];
     index_len := 2 |}.

(** No rule of the list matches [df]. *)
Definition no_rule_matches (rules : list Rule) (df : DataFrame) : bool :=
  forallb (fun rule => negb (fst rule df)) rules.

(** Every column is numeric (int64, float64) or categorical (object,
    category) for [select_dtypes]. *)
Definition all_numeric_or_categorical (df : DataFrame) : bool :=
  forallb (fun c => dtype_in (dtype c) [Int64; Float64]
                    || dtype_in (dtype c) [Object; Category])
          (columns df).

(** Some column is named, up to case, by one of the time words. *)
Definition time_named (df : DataFrame) : Prop :=
  exists col, In col (columns df)
    /\ In (lower (name col)) ["month"; "year"; "date"; "time"; "day"].

(** [df_category_value] with its columns swapped. *)
Definition df_value_category : DataFrame :=
  {| columns :=
       [ mkColumn "Value" Int64 (int_cells [10; 20; 30; 40; 50]%Z);
         mkColumn "Category" Object (text_cells ["A"; "B"; "C"; "D"; "E"]) ];
     index_len := 5 |}.

(** The chart types with a branch in [generate_chart] of pqr.py and xyz.py. *)
Definition pqr_chart_types : list string :=
  ["bar"; "pie"; "line"; "scatter"; "heatmap"; "histogram"].

(** The chart types with a branch in [generate_chart] of str.py. *)
Definition str_chart_types : list string :=
  ["bar"; "pie"; "line"; "scatter"; "heatmap"; "histogram"; "boxplot";
   "violinplot"; "densityplot"; "treemap"; "sunburst"; "waterfall"; "funnel";
   "sankey"].

(** A [str] option that Python's [value if value else default] treats as
    absent is made [None]. *)
Definition absent_if_falsy (value : option string) : option string :=
  match value with
  | Some EmptyString => None
  | _ => value
  end.

(** The same for an [int] option. *)
Definition absent_if_zero (value : option Z) : option Z :=
  match value with
  | Some 0%Z => None
  | _ => value
  end.

(** [{'X': [1..5], 'Y': [2, 4, 6, 8, 10]}] *)
Definition df_x_y : DataFrame :=
  {| columns :=
       [ mkColumn "X" Int64 (int_cells [1; 2; 3; 4; 5]%Z);
         mkColumn "Y" Int64 (int_cells [2; 4; 6; 8; 10]%Z) ];
     index_len := 5 |}.

(** [{'Category': ['A'..'E'], 'Value1': [...], 'Value2': [...]}] *)
Definition df_category_two_values : DataFrame :=
  {| columns :=
       [ mkColumn "Category" Object (text_cells ["A"; "B"; "C"; "D"; "E"]);
         mkColumn "Value1" Int64 (int_cells [10; 20; 30; 40; 50]%Z);
         mkColumn "Value2" Int64 (int_cells [15; 25; 35; 45; 55]%Z) ];
     index_len := 5 |}.

(** The results the rules of csv1.py can give. *)
Definition csv1_results : list (option string) :=
  [ None; Some "histogram"; Some "pie"; Some "scatter"; Some "heatmap";
    Some "line"; Some "box" ].

(** The line rule's name test is reached: the pie rule does not match, and
    there are at least 2 columns and a numeric one. *)
Definition reaches_name_test (df : Labels.DataFrame) : bool :=
  let n := length (Labels.columns df) in
  let k := length (Labels.select_dtypes [Int64; Float64] df) in
  let c := length (Labels.select_dtypes [Object; Category] df) in
  negb ((n =? 2) && (k =? 1) && (c =? 1) && (Labels.len df <=? 10))
  && ((2 <=? n) && (0 <? k)).

(** [pd.DataFrame] of 11 rows of a text and a number, built without column
    names: the labels are 0 and 1. *)
Definition df_int_labels : Labels.DataFrame :=
  {| Labels.columns :=
       [ Labels.mkColumn (Labels.LInt 0) Object (repeat (CStr "x") 11);
         Labels.mkColumn (Labels.LInt 1) Int64 (repeat (CInt 1%Z) 11) ];
     Labels.index_len := 11 |}.

(** The results the rules of str.py and waterfall.py can give. *)
Definition reachable_results : list (option string) :=
  [ None; Some "pie"; Some "line"; Some "scatter"; Some "histogram";
    Some "bar"; Some "area" ].

Example waterfall_category_value :
  Waterfall.determine_chart_type df_category_value = Some "pie".
Proof. reflexivity. Qed.

Example str_category_value :
  Str.determine_chart_type (PyDataFrame df_category_value)
  = Returns (Some "pie").
Proof. reflexivity. Qed.

Example str_value :
  Str.determine_chart_type (PyDataFrame df_value) = Returns (Some "histogram").
Proof. reflexivity. Qed.

Example lower_month : lower "Month" = "month".
Proof. reflexivity. Qed.

(** ** Counting columns *)

Section Counting.

Context {A : Type}.
Variables p q : A -> bool.

Lemma indices_from_length (i : nat) (l : list A) :
  length (indices_from p i l) = length (filter p l).
Proof.
  revert i; induction l as [|x rest IH]; intros i; simpl.
  - reflexivity.
  - destruct (p x); simpl; rewrite IH; reflexivity.
Qed.

Hypothesis disjoint : forall x, p x = true -> q x = false.

Lemma filter_disjoint_le (l : list A) :
  length (filter p l) + length (filter q l) <= length l.
Proof.
  induction l as [|x rest IH]; simpl; [lia|].
  destruct (p x) eqn:Hp.
  - rewrite (disjoint x Hp); simpl; lia.
  - destruct (q x); simpl; lia.
Qed.

Lemma filter_cover_eq (l : list A) :
  forallb (fun x => p x || q x) l = true ->
  length (filter p l) + length (filter q l) = length l.
Proof.
  induction l as [|x rest IH]; simpl; [reflexivity|].
  intros H; apply andb_true_iff in H; destruct H as [Hx Hrest].
  specialize (IH Hrest).
  destruct (p x) eqn:Hp.
  - rewrite (disjoint x Hp); simpl; lia.
  - simpl in Hx; rewrite Hx; simpl; lia.
Qed.

Lemma filter_negb_eq (l : list A) :
  length (filter p l) + length (filter (fun x => negb (p x)) l) = length l.
Proof.
  induction l as [|x rest IH]; simpl; [reflexivity|].
  destruct (p x); simpl; lia.
Qed.

End Counting.

Lemma numeric_not_categorical (c : Column) :
  dtype_in (dtype c) [Int64; Float64] = true ->
  dtype_in (dtype c) [Object; Category] = false.
Proof. destruct (dtype c); simpl; intros H; (discriminate H || reflexivity). Qed.

Lemma num_cat_le (df : DataFrame) :
  num_count df + cat_count df <= length (columns df).
Proof.
  unfold num_count, cat_count, select_dtypes.
  apply filter_disjoint_le, numeric_not_categorical.
Qed.

Lemma num_cat_cover (df : DataFrame) :
  all_numeric_or_categorical df = true ->
  num_count df + cat_count df = length (columns df).
Proof.
  unfold all_numeric_or_categorical, num_count, cat_count, select_dtypes.
  apply filter_cover_eq, numeric_not_categorical.
Qed.

Lemma number_split (df : DataFrame) :
  length (select_number df) + length (select_not_number df)
  = length (columns df).
Proof. unfold select_number, select_not_number. apply filter_negb_eq. Qed.

(** ** The cascade of waterfall.py is the decision list, and str.py guards it *)

Lemma waterfall_first_match (df : DataFrame) :
  Waterfall.determine_chart_type df = first_match canonical_rules df.
Proof. reflexivity. Qed.

Lemma str_guarded (df : DataFrame) :
  Str.determine_chart_type (PyDataFrame df) =
  if empty df then Raises (ValueError "Input DataFrame is empty.")
  else Returns (Waterfall.determine_chart_type df).
Proof.
  unfold Str.determine_chart_type, Waterfall.determine_chart_type.
  destruct (empty df); [reflexivity|].
  cbv zeta.
  repeat match goal with
  | |- context [if ?b then Returns _ else _] => destruct b; [reflexivity|]
  end.
  reflexivity.
Qed.

Lemma first_match_in (rules : list Rule) (df : DataFrame) (kind : string) :
  first_match rules df = Some kind -> In kind (map snd rules).
Proof.
  induction rules as [|[matches k] later IH]; simpl; [discriminate|].
  destruct (matches df).
  - intros H; injection H as ->; left; reflexivity.
  - intros H; right; exact (IH H).
Qed.

Lemma canonical_kinds_in_catalog :
  incl (map snd canonical_rules) catalog.
Proof.
  intros kind H; simpl in H.
  repeat (destruct H as [<-|H]; [simpl; tauto|]).
  contradiction.
Qed.

Lemma waterfall_in_catalog (df : DataFrame) :
  chart_kind_or_none (Waterfall.determine_chart_type df).
Proof.
  rewrite waterfall_first_match.
  destruct (first_match canonical_rules df) as [kind|] eqn:E; simpl; [|exact I].
  apply canonical_kinds_in_catalog, (first_match_in _ _ _ E).
Qed.

(** ** C1: totality *)

(** A DataFrame with str labels gets from [WaterfallLabels] and [StrLabels]
    what [Waterfall] and [Str] give it. *)

Lemma lowered_of_named (cols : list Column) :
  Labels.lowered
    (map Labels.label
       (map (fun c => Labels.mkColumn (Labels.LStr (name c)) (dtype c)
                                      (values c)) cols))
  = inr (map (fun col => lower (name col)) cols).
Proof.
  induction cols as [|c rest IH]; simpl; [reflexivity|].
  rewrite IH. reflexivity.
Qed.

Lemma select_dtypes_of_named (include : list Dtype) (df : DataFrame) :
  length (Labels.select_dtypes include (Labels.of_named df))
  = length (select_dtypes include df).
Proof.
  unfold Labels.select_dtypes, select_dtypes, Labels.of_named. simpl.
  induction (columns df) as [|c rest IH]; simpl; [reflexivity|].
  destruct (dtype_in (dtype c) include); simpl; rewrite IH; reflexivity.
Qed.

Lemma columns_of_named (df : DataFrame) :
  length (Labels.columns (Labels.of_named df)) = length (columns df).
Proof. unfold Labels.of_named. simpl. apply length_map. Qed.

Lemma waterfall_labels_of_named (df : DataFrame) :
  WaterfallLabels.determine_chart_type (Labels.of_named df)
  = Labels.Returns (Waterfall.determine_chart_type df).
Proof.
  unfold WaterfallLabels.determine_chart_type, Waterfall.determine_chart_type.
  cbv zeta.
  rewrite !select_dtypes_of_named, !columns_of_named.
  change (Labels.len (Labels.of_named df)) with (len df).
  change (Labels.columns (Labels.of_named df))
    with (map (fun c => Labels.mkColumn (Labels.LStr (name c)) (dtype c)
                                        (values c)) (columns df)).
  rewrite lowered_of_named.
  match goal with
  | |- (if ?pie then _ else _) = _ => destruct pie; [reflexivity|]
  end.
  destruct ((2 <=? length (columns df))
            && (0 <? length (select_dtypes [Int64; Float64] df))); simpl.
  - match goal with
    | |- (if ?named then _ else _) = _ => destruct named; [reflexivity|]
    end.
    repeat match goal with
    | |- context [if ?b then Labels.Returns _ else _] =>
        destruct b; [reflexivity|]
    end.
    reflexivity.
  - repeat match goal with
    | |- context [if ?b then Labels.Returns _ else _] =>
        destruct b; [reflexivity|]
    end.
    reflexivity.
Qed.

Lemma str_labels_guarded (df : Labels.DataFrame) :
  StrLabels.determine_chart_type (Labels.PyDataFrame df)
  = if Labels.empty df
    then Labels.Raises (Labels.ValueError "Input DataFrame is empty.")
    else WaterfallLabels.determine_chart_type df.
Proof. reflexivity. Qed.

Lemma all_str_of_named (df : Labels.DataFrame) :
  Labels.all_str df = true -> exists named, df = Labels.of_named named.
Proof.
  destruct df as [cols r]. unfold Labels.all_str. simpl.
  induction cols as [|[l d v] rest IH]; simpl; intros H.
  - exists (mkDataFrame [] r). reflexivity.
  - apply andb_true_iff in H. destruct H as [Hl Hrest].
    destruct l as [s|z]; [|discriminate Hl].
    destruct (IH Hrest) as [[cols0 r0] Heq].
    unfold Labels.of_named in Heq. simpl in Heq. injection Heq as Hcols Hr.
    exists (mkDataFrame (mkColumn s d v :: cols0) r).
    unfold Labels.of_named. simpl. rewrite Hcols. reflexivity.
Qed.

Lemma lowered_fails (cols : list Labels.Column) :
  forallb (fun c => Labels.is_str (Labels.label c)) cols = false ->
  Labels.lowered (map Labels.label cols) = inl Labels.AttributeError.
Proof.
  induction cols as [|[[s|z] d v] rest IH]; simpl; intros H.
  - discriminate H.
  - rewrite (IH H). reflexivity.
  - reflexivity.
Qed.

Lemma empty_of_named (df : DataFrame) :
  Labels.empty (Labels.of_named df) = empty df.
Proof.
  unfold Labels.empty, empty. rewrite columns_of_named. reflexivity.
Qed.

(** C1, as amended: on every rectangular dataset whose column labels are
    str, the selector of waterfall.py returns one element of {catalog kinds,
    none} without raising, also when the dataset has columns and no row; the
    selector of str.py returns that same value when the dataset is not
    empty, and rejects an empty one (no row or no column) with the
    [ValueError] of its guard. *)
Theorem selector_total_on_str_labels (df : Labels.DataFrame) :
  Labels.all_str df = true ->
  (exists v, WaterfallLabels.determine_chart_type df = Labels.Returns v
             /\ chart_kind_or_none v)
  /\ StrLabels.determine_chart_type (Labels.PyDataFrame df)
     = if Labels.empty df
       then Labels.Raises (Labels.ValueError "Input DataFrame is empty.")
       else WaterfallLabels.determine_chart_type df.
Proof.
  intros Hstr. split; [|apply str_labels_guarded].
  destruct (all_str_of_named df Hstr) as [named ->].
  rewrite waterfall_labels_of_named.
  eexists. split; [reflexivity|]. apply waterfall_in_catalog.
Qed.

Lemma selector_total_on_str_labels_witness :
  exists v, WaterfallLabels.determine_chart_type (Labels.of_named df_no_rows)
            = Labels.Returns v
            /\ chart_kind_or_none v.
Proof.
  exact (proj1 (selector_total_on_str_labels (Labels.of_named df_no_rows)
                  eq_refl)).
Defined.

(** C1, as stated, fails: str.py rejects a rectangular dataset with two
    defined columns and no row; and with the integer labels of a frame built
    without column names, both selectors raise [AttributeError] at
    [col.lower()]. *)
Lemma selector_rejects_zero_rows_and_int_labels :
  (Labels.rectangular (Labels.of_named df_no_rows)
   /\ length (Labels.columns (Labels.of_named df_no_rows)) = 2
   /\ Labels.len (Labels.of_named df_no_rows) = 0
   /\ ~ (exists v,
           StrLabels.determine_chart_type
             (Labels.PyDataFrame (Labels.of_named df_no_rows))
           = Labels.Returns v
           /\ chart_kind_or_none v))
  /\ (Labels.rectangular df_int_labels
      /\ WaterfallLabels.determine_chart_type df_int_labels
         = Labels.Raises Labels.AttributeError
      /\ StrLabels.determine_chart_type (Labels.PyDataFrame df_int_labels)
         = Labels.Raises Labels.AttributeError).
Proof.
  split; [split; [|split; [|split]]|split; [|split]].
  - repeat constructor.
  - reflexivity.
  - reflexivity.
  - intros [v [H _]]. discriminate H.
  - repeat constructor.
  - reflexivity.
  - reflexivity.
Qed.

(** The selector of waterfall.py raises exactly when the name test of the
    line rule is reached on a DataFrame with an int label. *)
Remark waterfall_raises_exactly (df : Labels.DataFrame) :
  WaterfallLabels.determine_chart_type df
  = Labels.Raises Labels.AttributeError
  <-> reaches_name_test df = true /\ Labels.all_str df = false.
Proof.
  unfold WaterfallLabels.determine_chart_type, reaches_name_test. cbv zeta.
  destruct ((length (Labels.columns df) =? 2)
            && (length (Labels.select_dtypes [Int64; Float64] df) =? 1)
            && (length (Labels.select_dtypes [Object; Category] df) =? 1)
            && (Labels.len df <=? 10)); cbn [negb andb].
  - split; [discriminate|intros [H _]; discriminate H].
  - assert (Hbelow : forall r : Labels.Result,
              (r = Labels.Raises Labels.AttributeError -> False) ->
              (r = Labels.Raises Labels.AttributeError
               <-> false = true /\ Labels.all_str df = false))
      by (intros r Hr; split; [intros H; destruct (Hr H)
                              |intros [H _]; discriminate H]).
    destruct ((2 <=? length (Labels.columns df))
              && (0 <? length (Labels.select_dtypes [Int64; Float64] df))).
    + destruct (Labels.all_str df) eqn:Hstr.
      * destruct (all_str_of_named df Hstr) as [named ->].
        change (Labels.columns (Labels.of_named named))
          with (map (fun c => Labels.mkColumn (Labels.LStr (name c)) (dtype c)
                                (values c)) (columns named)).
        rewrite lowered_of_named.
        split; [|intros [_ H]; discriminate H].
        repeat match goal with
        | |- context [if ?b then _ else _] => destruct b; try discriminate
        end.
      * rewrite (lowered_fails _ Hstr).
        split; [intros _; split; reflexivity|intros _; reflexivity].
    + apply Hbelow.
      repeat match goal with
      | |- context [if ?b then _ else _] => destruct b; try discriminate
      end.
Qed.


(** ** Reading the cascade through its five inputs *)

(** The cascade written over [num_count], [cat_count] and
    [has_time_column]. *)
Lemma waterfall_unfold (df : DataFrame) :
  Waterfall.determine_chart_type df =
  if pie_rule df then Some "pie"
  else if line_rule df then Some "line"
  else if scatter_rule df then Some "scatter"
  else if histogram_rule df then Some "histogram"
  else if heatmap_rule df then Some "heatmap"
  else if bubble_rule df then Some "bubble"
  else if radar_rule df then Some "radar"
  else if bar_rule df then Some "bar"
  else if area_rule df then Some "area"
  else if dot_rule df then Some "dot"
  else if treemap_rule df then Some "treemap"
  else if gauge_rule df then Some "gauge"
  else None.
Proof. reflexivity. Qed.

Ltac unfold_rules :=
  unfold pie_rule, line_rule, scatter_rule, histogram_rule, heatmap_rule,
    bubble_rule, radar_rule, bar_rule, area_rule, dot_rule, treemap_rule,
    gauge_rule, one_cat_one_num in *.

(** Split on every comparison of the goal, dropping the impossible cases. *)
Ltac by_comparisons :=
  repeat match goal with
  | |- context [?a =? ?b] => destruct (Nat.eqb_spec a b); try lia
  | |- context [?a <=? ?b] => destruct (Nat.leb_spec a b); try lia
  | |- context [?a <? ?b] => destruct (Nat.ltb_spec a b); try lia
  end.

Lemma waterfall_congr (df1 df2 : DataFrame) :
  length (columns df1) = length (columns df2) ->
  num_count df1 = num_count df2 ->
  cat_count df1 = cat_count df2 ->
  len df1 = len df2 ->
  map (fun col => lower (name col)) (columns df1)
  = map (fun col => lower (name col)) (columns df2) ->
  Waterfall.determine_chart_type df1 = Waterfall.determine_chart_type df2.
Proof.
  intros Hn Hk Hc Hr Ht.
  rewrite !waterfall_unfold. unfold_rules. unfold has_time_column.
  rewrite Hn, Hk, Hc, Hr, Ht. reflexivity.
Qed.

Lemma extract_fields (df1 df2 : DataFrame) :
  extract df1 = extract df2 ->
  length (columns df1) = length (columns df2)
  /\ num_count df1 = num_count df2
  /\ cat_count df1 = cat_count df2
  /\ len df1 = len df2
  /\ map (fun col => lower (name col)) (columns df1)
     = map (fun col => lower (name col)) (columns df2).
Proof.
  intros H.
  pose proof (f_equal column_count H) as Hn.
  pose proof (f_equal (fun s => length (numeric_columns s)) H) as Hk.
  pose proof (f_equal (fun s => length (categorical_columns s)) H) as Hc.
  pose proof (f_equal row_count H) as Hr.
  pose proof (f_equal column_names_lowercased H) as Ht.
  simpl in Hn, Hk, Hc, Hr, Ht.
  rewrite !indices_from_length in Hk, Hc.
  repeat split; assumption.
Qed.

(** ** C2: the result is a function of the schema descriptor *)

(** C2: two datasets with the same schema descriptor (column count,
    positions of the numeric and of the categorical columns, row count,
    lower-cased column names) get the same outcome from the selector of
    str.py, and from that of waterfall.py; the cells are not part of the
    descriptor, so their magnitudes never matter. *)
Theorem same_schema_same_chart (df1 df2 : DataFrame) :
  extract df1 = extract df2 ->
  Str.determine_chart_type (PyDataFrame df1)
  = Str.determine_chart_type (PyDataFrame df2)
  /\ Waterfall.determine_chart_type df1 = Waterfall.determine_chart_type df2.
Proof.
  intros H.
  destruct (extract_fields df1 df2 H) as (Hn & Hk & Hc & Hr & Ht).
  assert (Hw : Waterfall.determine_chart_type df1
               = Waterfall.determine_chart_type df2)
    by (apply waterfall_congr; assumption).
  split; [|exact Hw].
  rewrite !str_guarded, Hw. unfold empty. rewrite Hn, Hr. reflexivity.
Qed.

Lemma same_schema_same_chart_witness :
  columns df_category_value <> columns df_category_value_scaled
  /\ Str.determine_chart_type (PyDataFrame df_category_value)
     = Str.determine_chart_type (PyDataFrame df_category_value_scaled).
Proof.
  split.
  - discriminate.
  - exact (proj1 (same_schema_same_chart df_category_value
                    df_category_value_scaled eq_refl)).
Defined.

(** ** C3: the time-name rule *)

Lemma time_named_has_time_column (df : DataFrame) :
  time_named df -> has_time_column df = true.
Proof.
  intros (col & Hcol & Hword).
  unfold has_time_column, any, str_in.
  apply existsb_exists. exists (lower (name col)). split; [exact Hword|].
  apply existsb_exists. exists (lower (name col)). split.
  - apply in_map_iff. exists col. split; [reflexivity|exact Hcol].
  - apply String.eqb_refl.
Qed.

(** C3, as amended: a non-empty dataset with at least 2 columns, at least one
    numeric column and a column named, up to case, month, year, date, time or
    day gets 'line' from the selector of str.py, before every rule below the
    line rule, unless the pie rule above it matches (exactly 2 columns, 1
    numeric and 1 categorical, at most 10 rows), which gives 'pie'. *)
Theorem time_name_gives_line_below_pie (df : DataFrame) :
  empty df = false ->
  2 <= length (columns df) ->
  1 <= num_count df ->
  time_named df ->
  Str.determine_chart_type (PyDataFrame df)
  = Returns (Some (if pie_rule df then "pie" else "line")).
Proof.
  intros Hne Hn Hk Ht.
  rewrite str_guarded, Hne, waterfall_unfold.
  destruct (pie_rule df); [reflexivity|].
  unfold line_rule. rewrite (time_named_has_time_column df Ht).
  by_comparisons. reflexivity.
Qed.

Lemma time_name_gives_line_below_pie_witness :
  Str.determine_chart_type (PyDataFrame (df_text_number "Month" "Sales" 12))
  = Returns (Some "line").
Proof.
  apply (time_name_gives_line_below_pie (df_text_number "Month" "Sales" 12)).
  - reflexivity.
  - simpl; lia.
  - unfold num_count; simpl; lia.
  - exists (mkColumn "Month" Object (repeat (CStr "x") 12)).
    split; simpl; tauto.
Defined.

(** C3, as stated, fails: [Month] and a numeric column in three rows match
    the pie rule, which is tested first; and with no row at all the guard of
    str.py raises before any rule is tried. *)
Lemma month_column_gets_pie :
  (time_named df_month_sales
   /\ 2 <= length (columns df_month_sales)
   /\ 1 <= num_count df_month_sales
   /\ Str.determine_chart_type (PyDataFrame df_month_sales)
      = Returns (Some "pie"))
  /\ (time_named df_month_no_rows
      /\ 2 <= length (columns df_month_no_rows)
      /\ 1 <= num_count df_month_no_rows
      /\ pie_rule df_month_no_rows = false
      /\ Str.determine_chart_type (PyDataFrame df_month_no_rows)
         = Raises (ValueError "Input DataFrame is empty.")).
Proof.
  split; [split; [|split; [|split]] | split; [|split; [|split; [|split]]]].
  - exists (mkColumn "Month" Object (text_cells ["Jan"; "Feb"; "Mar"])).
    split; simpl; tauto.
  - simpl; lia.
  - unfold num_count; simpl; lia.
  - reflexivity.
  - exists (mkColumn "Month" Object []). split; simpl; tauto.
  - simpl; lia.
  - unfold num_count; simpl; lia.
  - reflexivity.
  - reflexivity.
Qed.

(** ** C4: the row-count boundary of the pie rule *)

(** C4: for a dataset of 2 columns, one numeric and one categorical, the
    selector of str.py returns 'pie' at exactly 10 rows, and at 11 rows it
    does not: it returns 'line' when a column has a time name and 'bar'
    otherwise. *)
Theorem pie_boundary (df : DataFrame) :
  length (columns df) = 2 ->
  num_count df = 1 ->
  cat_count df = 1 ->
  (len df = 10 ->
   Str.determine_chart_type (PyDataFrame df) = Returns (Some "pie"))
  /\ (len df = 11 ->
      Str.determine_chart_type (PyDataFrame df)
      = Returns (Some (if has_time_column df then "line" else "bar"))
      /\ Str.determine_chart_type (PyDataFrame df) <> Returns (Some "pie")).
Proof.
  intros Hn Hk Hc.
  assert (Hne : forall r, len df = S r -> empty df = false).
  { intros r Hr. unfold empty. rewrite Hn, Hr. reflexivity. }
  split; intros Hr; rewrite str_guarded, (Hne _ Hr), waterfall_unfold;
    unfold_rules; rewrite Hn, Hk, Hc, Hr; simpl.
  - reflexivity.
  - destruct (has_time_column df); split; (reflexivity || discriminate).
Qed.

Lemma pie_boundary_witness :
  Str.determine_chart_type (PyDataFrame (df_text_number "Category" "Value" 10))
  = Returns (Some "pie")
  /\ Str.determine_chart_type
       (PyDataFrame (df_text_number "Category" "Value" 11))
     = Returns (Some "bar")
  /\ Str.determine_chart_type (PyDataFrame (df_text_number "Month" "Sales" 11))
     = Returns (Some "line").
Proof.
  split; [|split].
  - exact (proj1 (pie_boundary (df_text_number "Category" "Value" 10)
                    eq_refl eq_refl eq_refl) eq_refl).
  - exact (proj1 (proj2 (pie_boundary (df_text_number "Category" "Value" 11)
                           eq_refl eq_refl eq_refl) eq_refl)).
  - exact (proj1 (proj2 (pie_boundary (df_text_number "Month" "Sales" 11)
                           eq_refl eq_refl eq_refl) eq_refl)).
Defined.

(** ** C5: the shadowed kinds *)

Lemma waterfall_shadowed (df : DataFrame) (kind : string) :
  all_numeric_or_categorical df = true ->
  In kind ["area"; "dot"; "treemap"; "gauge"; "bubble"] ->
  Waterfall.determine_chart_type df <> Some kind.
Proof.
  intros Hall Hkind.
  pose proof (num_cat_cover df Hall) as Hsum.
  rewrite waterfall_unfold. unfold_rules.
  destruct (has_time_column df);
    by_comparisons; simpl;
    simpl in Hkind; intuition (subst; discriminate).
Qed.

(** C5: when every column is numeric or categorical, the selector of str.py
    never returns 'area', 'dot', 'treemap', 'gauge' or 'bubble'. *)
Theorem shadowed_kinds_never_returned (df : DataFrame) (kind : string) :
  all_numeric_or_categorical df = true ->
  In kind ["area"; "dot"; "treemap"; "gauge"; "bubble"] ->
  Str.determine_chart_type (PyDataFrame df) <> Returns (Some kind).
Proof.
  intros Hall Hkind. rewrite str_guarded.
  destruct (empty df); [discriminate|].
  intros H. injection H as H.
  exact (waterfall_shadowed df kind Hall Hkind H).
Qed.

Lemma shadowed_kinds_never_returned_witness :
  Str.determine_chart_type (PyDataFrame df_category_value)
  <> Returns (Some "area").
Proof.
  apply (shadowed_kinds_never_returned df_category_value "area").
  - reflexivity.
  - simpl; tauto.
Defined.

(** Without the hypothesis of C5 the 'area' rule can be reached: a column
    that is neither numeric nor categorical keeps the 'bar' rule from
    matching. *)
Remark area_reached_with_boolean_columns :
  all_numeric_or_categorical df_number_two_flags = false
  /\ Str.determine_chart_type (PyDataFrame df_number_two_flags)
     = Returns (Some "area").
Proof. split; reflexivity. Qed.

(** ** C6: precedence in the decision list *)

Lemma first_match_earliest (rules : list Rule) (df : DataFrame) :
  forall (i : nat) (kind : string),
  rule_matches rules i df = true ->
  rule_kind rules i = Some kind ->
  (forall h, h < i -> rule_matches rules h df = false) ->
  first_match rules df = Some kind.
Proof.
  induction rules as [|[matches k] later IH]; intros i kind Hm Hk Hfirst.
  - destruct i; discriminate Hm.
  - destruct i as [|i]; simpl.
    + unfold rule_matches in Hm; simpl in Hm. rewrite Hm.
      unfold rule_kind in Hk; simpl in Hk. exact Hk.
    + assert (H0 : matches df = false) by (apply (Hfirst 0); lia).
      rewrite H0. apply (IH i kind).
      * exact Hm.
      * exact Hk.
      * intros h Hh. apply (Hfirst (S h)). lia.
Qed.

(** C6, as amended: when a non-empty dataset matches rules i and j of the
    decision list, i before j, and no rule before i matches, the selector of
    str.py returns the kind of rule i: the first matching rule wins. *)
Theorem first_matching_rule_wins (df : DataFrame) (i j : nat) (kind : string) :
  empty df = false ->
  i < j ->
  rule_matches canonical_rules i df = true ->
  rule_matches canonical_rules j df = true ->
  (forall h, h < i -> rule_matches canonical_rules h df = false) ->
  rule_kind canonical_rules i = Some kind ->
  Str.determine_chart_type (PyDataFrame df) = Returns (Some kind).
Proof.
  intros Hne _ Hi _ Hfirst Hkind.
  rewrite str_guarded, Hne, waterfall_first_match.
  f_equal. exact (first_match_earliest canonical_rules df i kind Hi Hkind Hfirst).
Qed.

Lemma first_matching_rule_wins_witness :
  Str.determine_chart_type (PyDataFrame (df_text_number "Category" "Value" 11))
  = Returns (Some "bar").
Proof.
  apply (first_matching_rule_wins
           (df_text_number "Category" "Value" 11) 7 8 "bar").
  - reflexivity.
  - lia.
  - reflexivity.
  - reflexivity.
  - intros h Hh.
    do 7 (destruct h as [|h]; [reflexivity|]). lia.
  - reflexivity.
Defined.

(** C6, as stated, fails: [df_category_value] matches the 'bar' rule (number
    7 from 0) and the 'area' rule (number 8), and the result is 'pie', the
    kind of rule 0, which matches too; and the empty [df_no_rows] matches the
    'pie' and the 'bar' rule and is rejected by the guard of str.py. *)
Lemma earlier_of_two_matching_rules_can_lose :
  (rule_matches canonical_rules 7 df_category_value = true
   /\ rule_matches canonical_rules 8 df_category_value = true
   /\ rule_kind canonical_rules 7 = Some "bar"
   /\ Str.determine_chart_type (PyDataFrame df_category_value)
      = Returns (Some "pie"))
  /\ (rule_matches canonical_rules 0 df_no_rows = true
      /\ rule_matches canonical_rules 7 df_no_rows = true
      /\ rule_kind canonical_rules 0 = Some "pie"
      /\ Str.determine_chart_type (PyDataFrame df_no_rows)
         = Raises (ValueError "Input DataFrame is empty.")).
Proof. repeat split. Qed.

(** ** C7: two categorical columns and a numeric one *)

Lemma heatmap_shape_counts (df : DataFrame) (c0 c1 c2 : Column) :
  columns df = [c0; c1; c2] ->
  dtype_in (dtype c0) [Object; Category] = true ->
  dtype_in (dtype c1) [Object; Category] = true ->
  dtype_in (dtype c2) [Int64; Float64] = true ->
  num_count df = 1 /\ cat_count df = 2
  /\ length (select_number df) = 1.
Proof.
  intros Hcols H0 H1 H2.
  unfold num_count, cat_count, select_dtypes, select_number.
  rewrite Hcols.
  destruct c0 as [n0 d0 v0], c1 as [n1 d1 v1], c2 as [n2 d2 v2].
  simpl in H0, H1, H2.
  destruct d0; try discriminate H0;
    destruct d1; try discriminate H1;
    destruct d2; try discriminate H2; repeat split.
Qed.

(** C7, as amended: for a 3-column dataset whose first two columns are
    categorical and whose third is numeric, the rule sets on the leading
    dtypes (pqr.py, xyz.py) return 'heatmap', and the minimal rule set of
    csv1.py returns 'box'. *)
Theorem two_categories_then_number (df : DataFrame) (c0 c1 c2 : Column) :
  columns df = [c0; c1; c2] ->
  dtype_in (dtype c0) [Object; Category] = true ->
  dtype_in (dtype c1) [Object; Category] = true ->
  dtype_in (dtype c2) [Int64; Float64] = true ->
  Pqr.determine_chart_type df = Some "heatmap"
  /\ Xyz.determine_chart_type df = Some "heatmap"
  /\ Csv1.determine_chart_type df = Some "box".
Proof.
  intros Hcols H0 H1 H2.
  destruct (heatmap_shape_counts df c0 c1 c2 Hcols H0 H1 H2)
    as (_ & _ & Hnum).
  split; [|split].
  - unfold Pqr.determine_chart_type. rewrite Hcols, H0, H1, H2. reflexivity.
  - unfold Xyz.determine_chart_type. rewrite Hcols, H0, H1, H2. reflexivity.
  - pose proof (number_split df) as Hsplit.
    unfold Csv1.determine_chart_type. cbv zeta.
    rewrite Hnum, Hcols in *. simpl in Hsplit.
    assert (Hcat : length (select_not_number df) = 2) by lia.
    rewrite Hcat. reflexivity.
Qed.

Lemma two_categories_then_number_witness :
  Pqr.determine_chart_type df_two_categories = Some "heatmap"
  /\ Xyz.determine_chart_type df_two_categories = Some "heatmap"
  /\ Csv1.determine_chart_type df_two_categories = Some "box".
Proof.
  exact (two_categories_then_number df_two_categories _ _ _
           eq_refl eq_refl eq_refl eq_refl).
Defined.

(** C7, as stated, fails on the example data of the source files: the richest
    rule set (str.py, waterfall.py) gives 'bar', not 'heatmap', and the
    minimal rule sets give 'box' (csv1.py) and [None] (abc_chat.py), not
    'bar'. *)
Lemma richest_gives_bar_minimal_gives_box :
  Str.determine_chart_type (PyDataFrame df_two_categories)
  = Returns (Some "bar")
  /\ Waterfall.determine_chart_type df_two_categories = Some "bar"
  /\ Csv1.determine_chart_type df_two_categories = Some "box"
  /\ AbcChat.determine_chart_type df_two_categories = Returns None.
Proof. repeat split. Qed.

(** The same shape under the rules of waterfall.py and str.py, when no column
    has a time name: the 'heatmap' rule asks for numeric columns only, and
    the first rule to match is 'bar'. *)
Remark richest_on_two_categories_then_number
  (df : DataFrame) (c0 c1 c2 : Column) :
  columns df = [c0; c1; c2] ->
  dtype_in (dtype c0) [Object; Category] = true ->
  dtype_in (dtype c1) [Object; Category] = true ->
  dtype_in (dtype c2) [Int64; Float64] = true ->
  has_time_column df = false ->
  Waterfall.determine_chart_type df = Some "bar"
  /\ Str.determine_chart_type (PyDataFrame df)
     = (if len df =? 0 then Raises (ValueError "Input DataFrame is empty.")
        else Returns (Some "bar")).
Proof.
  intros Hcols H0 H1 H2 Htime.
  destruct (heatmap_shape_counts df c0 c1 c2 Hcols H0 H1 H2)
    as (Hk & Hc & _).
  assert (Hw : Waterfall.determine_chart_type df = Some "bar").
  { rewrite waterfall_unfold. unfold_rules.
    rewrite Htime, Hk, Hc, Hcols. reflexivity. }
  split; [exact Hw|].
  rewrite str_guarded, Hw. unfold empty. rewrite Hcols. reflexivity.
Qed.

(** ** C8: the rules of csv1.py *)

(** C8, as amended: csv1.py branches on the column count, the count of
    number columns and the row count.  Two columns, one of them a number
    column, with at most 10 rows give 'pie'; two number columns give
    'scatter'; a single column, numeric or not, gives [None]; 3 or more
    columns give 'line' with exactly 2 number columns, 'heatmap' with 3 or
    more, 'box' with exactly 1; no number column gives [None]. *)
Theorem csv1_rules (df : DataFrame) :
  (length (columns df) = 2 -> length (select_number df) = 1 ->
   len df <= 10 -> Csv1.determine_chart_type df = Some "pie")
  /\ (length (columns df) = 2 -> length (select_number df) = 2 ->
      Csv1.determine_chart_type df = Some "scatter")
  /\ (length (columns df) = 1 -> Csv1.determine_chart_type df = None)
  /\ (3 <= length (columns df) -> length (select_number df) = 2 ->
      Csv1.determine_chart_type df = Some "line")
  /\ (3 <= length (columns df) -> 3 <= length (select_number df) ->
      Csv1.determine_chart_type df = Some "heatmap")
  /\ (3 <= length (columns df) -> length (select_number df) = 1 ->
      Csv1.determine_chart_type df = Some "box")
  /\ (length (select_number df) = 0 -> Csv1.determine_chart_type df = None).
Proof.
  pose proof (number_split df) as Hsplit.
  unfold Csv1.determine_chart_type. cbv zeta.
  repeat split; intros; by_comparisons; reflexivity.
Qed.

Lemma csv1_rules_witness :
  Csv1.determine_chart_type df_category_value = Some "pie"
  /\ Csv1.determine_chart_type df_value = None
  /\ Csv1.determine_chart_type df_three_numbers = Some "heatmap"
  /\ Csv1.determine_chart_type df_two_categories = Some "box".
Proof.
  split; [|split; [|split]].
  - apply (proj1 (csv1_rules df_category_value)); (reflexivity || (simpl; lia)).
  - apply (proj1 (proj2 (proj2 (csv1_rules df_value)))); reflexivity.
  - apply (proj1 (proj2 (proj2 (proj2 (proj2 (csv1_rules df_three_numbers))))));
      simpl; lia.
  - apply (proj1 (proj2 (proj2 (proj2 (proj2 (proj2
             (csv1_rules df_two_categories)))))));
      (reflexivity || (simpl; lia)).
Defined.

(** C8, as stated, fails on csv1.py: a single numeric column gets [None], not
    'histogram'; three numeric columns get 'heatmap', not 'line'; and a
    dataset outside the listed shapes gets 'box', not [None]. *)
Lemma csv1_differs_from_minimal_rule_set :
  (length (columns df_value) = 1 /\ length (select_number df_value) = 1
   /\ Csv1.determine_chart_type df_value = None)
  /\ (length (columns df_three_numbers) = 3
      /\ length (select_number df_three_numbers) = 3
      /\ Csv1.determine_chart_type df_three_numbers = Some "heatmap")
  /\ (length (columns df_two_categories) = 3
      /\ length (select_number df_two_categories) = 1
      /\ Csv1.determine_chart_type df_two_categories = Some "box").
Proof. repeat split. Qed.

(** Two columns, one of them a number column, and more than 10 rows: the
    first branch of csv1.py answers 'histogram', and its 'bar' branch is
    never reached. *)
Remark csv1_many_rows (df : DataFrame) :
  length (columns df) = 2 -> length (select_number df) = 1 -> 10 < len df ->
  Csv1.determine_chart_type df = Some "histogram".
Proof.
  intros. unfold Csv1.determine_chart_type. cbv zeta.
  by_comparisons; reflexivity.
Qed.

Remark csv1_never_bar (df : DataFrame) :
  Csv1.determine_chart_type df <> Some "bar".
Proof.
  unfold Csv1.determine_chart_type. cbv zeta.
  by_comparisons; discriminate.
Qed.

(** abc_chat.py on two columns whose second is a number column: 'bar' from
    two rows on, 'pie' below. *)
Remark abc_chat_two_columns (df : DataFrame) (c0 c1 : Column) :
  columns df = [c0; c1] -> is_np_number (dtype c1) = true ->
  AbcChat.determine_chart_type df
  = Returns (Some (if 1 <? len df then "bar" else "pie")).
Proof.
  intros Hcols Hnum. unfold AbcChat.determine_chart_type. rewrite Hcols.
  assert (Hsub : AbcChat.issubdtype_number (dtype c1) = inr true).
  { unfold AbcChat.issubdtype_number.
    destruct (dtype c1); (discriminate Hnum || reflexivity). }
  rewrite Hsub. by_comparisons; reflexivity.
Qed.

(** ** C9: no match is [None], only rejected inputs raise *)

Lemma no_rule_matches_first_match (rules : list Rule) (df : DataFrame) :
  no_rule_matches rules df = true -> first_match rules df = None.
Proof.
  induction rules as [|[matches kind] later IH]; simpl; [reflexivity|].
  intros H. apply andb_true_iff in H. destruct H as [Hhead Hlater].
  apply negb_true_iff in Hhead. simpl in Hhead. rewrite Hhead.
  exact (IH Hlater).
Qed.

(** C9, as amended: on every non-empty dataset with str column labels that
    no rule matches, the selector of str.py returns [None]; on datasets with
    str column labels it raises exactly when the dataset is empty (no
    column, or columns and no row), and it raises on an object that is not a
    DataFrame. *)
Theorem no_match_returns_none_on_str_labels :
  (forall df : Labels.DataFrame,
     Labels.all_str df = true ->
     ((exists e, StrLabels.determine_chart_type (Labels.PyDataFrame df)
                 = Labels.Raises e)
      <-> Labels.empty df = true))
  /\ StrLabels.determine_chart_type Labels.PyOther
     = Labels.Raises (Labels.ValueError "Input must be a pandas DataFrame.")
  /\ (forall df : DataFrame,
        empty df = false ->
        no_rule_matches canonical_rules df = true ->
        StrLabels.determine_chart_type (Labels.PyDataFrame (Labels.of_named df))
        = Labels.Returns None).
Proof.
  split; [|split; [reflexivity|]].
  - intros df Hstr. rewrite str_labels_guarded.
    destruct (all_str_of_named df Hstr) as [named ->].
    rewrite waterfall_labels_of_named.
    destruct (Labels.empty (Labels.of_named named)); split.
    + reflexivity.
    + intros _. eexists. reflexivity.
    + intros [e H]. discriminate H.
    + discriminate.
  - intros df Hne Hnone.
    rewrite str_labels_guarded, empty_of_named, Hne.
    rewrite waterfall_labels_of_named, waterfall_first_match.
    rewrite (no_rule_matches_first_match _ _ Hnone). reflexivity.
Qed.

Lemma no_match_returns_none_on_str_labels_witness :
  StrLabels.determine_chart_type (Labels.PyDataFrame (Labels.of_named df_two_text))
  = Labels.Returns None.
Proof.
  apply (proj2 (proj2 no_match_returns_none_on_str_labels) df_two_text);
    reflexivity.
Defined.

(** C9, as stated, fails: no rule matches the rectangular
    [df_two_text_no_rows] (two text columns, no row), and the selector of
    str.py raises instead of returning [None]. *)
Lemma no_match_without_rows_is_rejected :
  Labels.rectangular (Labels.of_named df_two_text_no_rows)
  /\ Labels.all_str (Labels.of_named df_two_text_no_rows) = true
  /\ no_rule_matches canonical_rules df_two_text_no_rows = true
  /\ WaterfallLabels.determine_chart_type (Labels.of_named df_two_text_no_rows)
     = Labels.Returns None
  /\ StrLabels.determine_chart_type
       (Labels.PyDataFrame (Labels.of_named df_two_text_no_rows))
     = Labels.Raises (Labels.ValueError "Input DataFrame is empty.").
Proof.
  split; [repeat constructor|]. repeat split.
Qed.

(** ** C10: 'bar' is tested before 'pie' in pqr.py and xyz.py *)

(** C10: in pqr.py and xyz.py, for a 2-column dataset whose first column is
    categorical and whose second is numeric, the selector returns 'bar'
    whenever there is more than one row, and can return 'pie' only with at
    most one row (where it does return it). *)
Theorem positional_bar_before_pie (df : DataFrame) (c0 c1 : Column) :
  columns df = [c0; c1] ->
  dtype_in (dtype c0) [Object; Category] = true ->
  dtype_in (dtype c1) [Int64; Float64] = true ->
  (1 < len df ->
   Pqr.determine_chart_type df = Some "bar"
   /\ Xyz.determine_chart_type df = Some "bar")
  /\ (Pqr.determine_chart_type df = Some "pie" -> len df <= 1)
  /\ (Xyz.determine_chart_type df = Some "pie" -> len df <= 1)
  /\ (len df <= 1 ->
      Pqr.determine_chart_type df = Some "pie"
      /\ Xyz.determine_chart_type df = Some "pie").
Proof.
  intros Hcols H0 H1.
  assert (Hnot : dtype_in (dtype c0) [Int64; Float64] = false).
  { destruct (dtype_in (dtype c0) [Int64; Float64]) eqn:E; [|reflexivity].
    rewrite (numeric_not_categorical c0 E) in H0. discriminate H0. }
  unfold Pqr.determine_chart_type, Xyz.determine_chart_type.
  rewrite Hcols, Hnot, H1. simpl.
  repeat split; intros; revert H; by_comparisons; simpl;
    intros; (reflexivity || discriminate || lia).
Qed.

Lemma positional_bar_before_pie_witness :
  Pqr.determine_chart_type df_category_value = Some "bar"
  /\ Xyz.determine_chart_type df_category_value = Some "bar"
  /\ Pqr.determine_chart_type (df_text_number "Category" "Value" 1)
     = Some "pie".
Proof.
  split; [|split].
  - apply (proj1 (positional_bar_before_pie df_category_value _ _
                    eq_refl eq_refl eq_refl)). simpl; lia.
  - apply (proj1 (positional_bar_before_pie df_category_value _ _
                    eq_refl eq_refl eq_refl)). simpl; lia.
  - apply (proj2 (proj2 (proj2 (positional_bar_before_pie
                    (df_text_number "Category" "Value" 1) _ _
                    eq_refl eq_refl eq_refl)))). simpl; lia.
Defined.

(** * Further properties of the selectors *)

(** ** The kinds the rules of str.py and waterfall.py can return *)

Lemma waterfall_result_reachable (df : DataFrame) :
  In (Waterfall.determine_chart_type df) reachable_results.
Proof.
  pose proof (num_cat_le df) as Hle.
  rewrite waterfall_unfold. unfold_rules.
  destruct (has_time_column df); by_comparisons; simpl; tauto.
Qed.

(** X1: the results of the rule cascade of waterfall.py, over all
    DataFrames, are exactly [None], 'pie', 'line', 'scatter', 'histogram',
    'bar' and 'area'; the 'heatmap', 'bubble', 'radar', 'dot', 'treemap' and
    'gauge' rules never decide, whatever the dtypes of the columns. *)
Theorem waterfall_image (v : option string) :
  (exists df, Waterfall.determine_chart_type df = v)
  <-> In v reachable_results.
Proof.
  split.
  - intros [df <-]. apply waterfall_result_reachable.
  - unfold reachable_results. simpl.
    intros [<-|[<-|[<-|[<-|[<-|[<-|[<-|[]]]]]]]].
    + exists df_two_text. reflexivity.
    + exists df_category_value. reflexivity.
    + exists (df_text_number "Month" "Sales" 11). reflexivity.
    + exists df_three_numbers. reflexivity.
    + exists df_value. reflexivity.
    + exists df_two_categories. reflexivity.
    + exists df_number_two_flags. reflexivity.
Qed.

Lemma waterfall_image_witness :
  In (Waterfall.determine_chart_type df_three_numbers) reachable_results.
Proof.
  apply (proj1 (waterfall_image _)). exists df_three_numbers. reflexivity.
Defined.

(** X2: the rules return 'area' exactly for more than 2 columns of which one
    is numeric and none categorical, with no time-named column. *)
Theorem area_exactly (df : DataFrame) :
  Waterfall.determine_chart_type df = Some "area"
  <-> 2 < length (columns df) /\ num_count df = 1 /\ cat_count df = 0
      /\ has_time_column df = false.
Proof.
  pose proof (num_cat_le df) as Hle.
  rewrite waterfall_unfold. unfold_rules.
  destruct (has_time_column df); by_comparisons; simpl;
    (split; [intros Hres; try discriminate Hres; repeat split; lia
            |intros (Hn & Hk & Hc & Ht);
             try discriminate Ht; try reflexivity; lia]).
Qed.

Lemma area_exactly_witness :
  Waterfall.determine_chart_type df_number_two_flags = Some "area".
Proof.
  apply (proj2 (area_exactly df_number_two_flags)).
  repeat split. unfold lt; simpl; lia.
Defined.

(** X3: the rules return [None] exactly when no column is int64 or float64,
    or when the dataset has 2 columns, one numeric and the other neither
    numeric nor categorical, and no time-named column. *)
Theorem none_exactly (df : DataFrame) :
  Waterfall.determine_chart_type df = None
  <-> num_count df = 0
      \/ (length (columns df) = 2 /\ num_count df = 1 /\ cat_count df = 0
          /\ has_time_column df = false).
Proof.
  pose proof (num_cat_le df) as Hle.
  rewrite waterfall_unfold. unfold_rules.
  destruct (has_time_column df); by_comparisons; simpl;
    (split; [intros Hres; try discriminate Hres;
             try (left; lia); right; repeat split; lia
            |intros [Hk0|(Hn & Hk & Hc & Ht)];
             try discriminate Ht; try reflexivity; lia]).
Qed.

Lemma none_exactly_witness :
  Waterfall.determine_chart_type df_two_text = None.
Proof.
  apply (proj2 (none_exactly df_two_text)). left. reflexivity.
Defined.

(** ** Column order and row count *)

Lemma filter_length_permutation {A : Type} (p : A -> bool) (l l' : list A) :
  Permutation l l' -> length (filter p l) = length (filter p l').
Proof.
  induction 1 as [|x l l' _ IH|x y l|l l' l'' _ IH1 _ IH2]; simpl.
  - reflexivity.
  - destruct (p x); simpl; rewrite IH; reflexivity.
  - destruct (p x), (p y); reflexivity.
  - rewrite IH1. exact IH2.
Qed.

Lemma existsb_permutation {A : Type} (f : A -> bool) (l l' : list A) :
  Permutation l l' -> existsb f l = existsb f l'.
Proof.
  induction 1 as [|x l l' _ IH|x y l|l l' l'' _ IH1 _ IH2]; simpl.
  - reflexivity.
  - rewrite IH; reflexivity.
  - destruct (f x), (f y); reflexivity.
  - rewrite IH1. exact IH2.
Qed.

Lemma existsb_pointwise {A : Type} (f g : A -> bool) (l : list A) :
  (forall x, f x = g x) -> existsb f l = existsb g l.
Proof.
  intros Hfg. induction l as [|x rest IH]; simpl; [reflexivity|].
  rewrite Hfg, IH. reflexivity.
Qed.

Lemma waterfall_congr_counts (df1 df2 : DataFrame) :
  length (columns df1) = length (columns df2) ->
  num_count df1 = num_count df2 ->
  cat_count df1 = cat_count df2 ->
  len df1 = len df2 ->
  has_time_column df1 = has_time_column df2 ->
  Waterfall.determine_chart_type df1 = Waterfall.determine_chart_type df2.
Proof.
  intros Hn Hk Hc Hr Ht.
  rewrite !waterfall_unfold. unfold_rules.
  rewrite Hn, Hk, Hc, Hr, Ht. reflexivity.
Qed.

(** X4: the selectors of waterfall.py and str.py do not depend on the order
    of the columns: two DataFrames with the same rows count whose columns are
    a permutation of each other get the same outcome. *)
Theorem column_order_irrelevant (df1 df2 : DataFrame) :
  Permutation (columns df1) (columns df2) ->
  len df1 = len df2 ->
  Waterfall.determine_chart_type df1 = Waterfall.determine_chart_type df2
  /\ Str.determine_chart_type (PyDataFrame df1)
     = Str.determine_chart_type (PyDataFrame df2).
Proof.
  intros Hperm Hr.
  assert (Hn : length (columns df1) = length (columns df2))
    by (apply Permutation_length, Hperm).
  assert (Hw : Waterfall.determine_chart_type df1
               = Waterfall.determine_chart_type df2).
  { apply waterfall_congr_counts; try assumption.
    - apply filter_length_permutation, Hperm.
    - apply filter_length_permutation, Hperm.
    - unfold has_time_column, any. apply existsb_pointwise. intros word.
      unfold str_in. apply existsb_permutation, Permutation_map, Hperm. }
  split; [exact Hw|].
  rewrite !str_guarded, Hw. unfold empty. rewrite Hn, Hr. reflexivity.
Qed.

Lemma column_order_irrelevant_witness :
  Str.determine_chart_type (PyDataFrame df_category_value)
  = Str.determine_chart_type (PyDataFrame df_value_category).
Proof.
  apply (column_order_irrelevant df_category_value df_value_category).
  - apply perm_swap.
  - reflexivity.
Defined.

(** The rules of pqr.py read the dtypes by position: swapping the columns of
    the example data changes the answer. *)
Remark pqr_column_order_matters :
  Pqr.determine_chart_type df_category_value = Some "bar"
  /\ Pqr.determine_chart_type df_value_category = None.
Proof. split; reflexivity. Qed.

Lemma filter_length_by_dtype (f : Dtype -> bool) (l1 l2 : list Column) :
  map dtype l1 = map dtype l2 ->
  length (filter (fun c => f (dtype c)) l1)
  = length (filter (fun c => f (dtype c)) l2).
Proof.
  revert l2. induction l1 as [|c1 rest1 IH]; intros [|c2 rest2] H;
    try discriminate H; [reflexivity|].
  simpl in H. injection H as Hd Hrest. simpl. rewrite Hd.
  destruct (f (dtype c2)); simpl; rewrite (IH rest2 Hrest); reflexivity.
Qed.

(** X5: for the rules of waterfall.py and str.py the number of rows matters
    only through the test [len(df) <= 10] (and, in str.py, through the empty
    guard): two DataFrames with the same column names and dtypes on the same
    side of 10 rows get the same result. *)
Theorem rows_matter_through_ten (df1 df2 : DataFrame) :
  map name (columns df1) = map name (columns df2) ->
  map dtype (columns df1) = map dtype (columns df2) ->
  (len df1 <=? 10) = (len df2 <=? 10) ->
  Waterfall.determine_chart_type df1 = Waterfall.determine_chart_type df2
  /\ (0 < len df1 -> 0 < len df2 ->
      Str.determine_chart_type (PyDataFrame df1)
      = Str.determine_chart_type (PyDataFrame df2)).
Proof.
  intros Hnames Hdtypes Hten.
  assert (Hn : length (columns df1) = length (columns df2)).
  { rewrite <- (length_map name (columns df1)), Hnames. apply length_map. }
  assert (Hk : num_count df1 = num_count df2)
    by (apply (filter_length_by_dtype (fun d => dtype_in d [Int64; Float64])),
          Hdtypes).
  assert (Hc : cat_count df1 = cat_count df2)
    by (apply (filter_length_by_dtype (fun d => dtype_in d [Object; Category])),
          Hdtypes).
  assert (Ht : has_time_column df1 = has_time_column df2).
  { unfold has_time_column.
    rewrite <- !(map_map name lower), Hnames. reflexivity. }
  assert (Hw : Waterfall.determine_chart_type df1
               = Waterfall.determine_chart_type df2).
  { pose proof (num_cat_le df2) as Hle.
    rewrite !waterfall_unfold. unfold_rules.
    rewrite Hn, Hk, Hc, Ht, Hten.
    destruct (has_time_column df2); by_comparisons; reflexivity. }
  split; [exact Hw|].
  intros H1 H2. rewrite !str_guarded, Hw. unfold empty. rewrite Hn.
  by_comparisons; reflexivity.
Qed.

Lemma rows_matter_through_ten_witness :
  Waterfall.determine_chart_type (df_text_number "Category" "Value" 11)
  = Waterfall.determine_chart_type (df_text_number "Category" "Value" 5000).
Proof.
  apply (rows_matter_through_ten (df_text_number "Category" "Value" 11)
                                 (df_text_number "Category" "Value" 5000));
    reflexivity.
Defined.

(** * The renderers *)

(** A chart type is one of the listed literals, or differs from each. *)
Lemma kind_cases (kinds : list string) (kind : string) :
  In kind kinds \/ forallb (fun k => negb (String.eqb kind k)) kinds = true.
Proof.
  induction kinds as [|k rest IH]; simpl; [right; reflexivity|].
  destruct (String.eqb_spec kind k) as [->|Hne]; [left; left; reflexivity|].
  destruct IH as [Hin|Hout]; [left; right; exact Hin|right; exact Hout].
Qed.

(** Use [Hout : forallb (fun k => negb (kind =? k)) kinds = true] to replace
    the comparisons of [kind] with the listed literals by [false]. *)
Ltac kind_is_none_of Hout kind :=
  simpl in Hout;
  repeat (apply andb_true_iff in Hout; destruct Hout as [?Hk Hout]);
  repeat match goal with
  | H : negb (String.eqb kind ?k) = true |- _ => apply negb_true_iff in H
  end;
  repeat match goal with
  | H : String.eqb kind ?k = false |- _ => rewrite ?H; clear H
  end.

Lemma not_empty_inv (df : DataFrame) :
  empty df = false -> columns df <> [] /\ len df <> 0.
Proof.
  unfold empty. intros H. apply orb_false_iff in H. destruct H as [Hn Hr].
  apply Nat.eqb_neq in Hn, Hr. split; [|exact Hr].
  intros Hnil. rewrite Hnil in Hn. apply Hn. reflexivity.
Qed.

(** Split on what the libraries answer to the calls of the goal. *)
Ltac oracle_cases :=
  unfold px_attr, evaluate, px_call, show; cbn;
  repeat (match goal with
          | |- context [px_has ?l ?f] => destruct (px_has l f) eqn:?
          | |- context [data_returns ?l ?d ?x] =>
              destruct (data_returns l d x) eqn:?
          | |- context [px_returns ?l ?d ?x] =>
              destruct (px_returns l d x) eqn:?
          | |- context [display_returns ?l ?x] =>
              destruct (display_returns l x) eqn:?
          end; cbn).

(** Close a goal [up_to_plotly lib f out] once [out] is a value. *)
Ltac close_plotly :=
  unfold up_to_plotly;
  repeat match goal with
  | H : px_has ?l ?f = _ |- context [px_has ?l ?f] => rewrite H
  end;
  split;
  [ first [ reflexivity
          | left; reflexivity
          | right; eexists; (split; [|reflexivity]); reflexivity ]
  | let Hd := fresh "Hd" in
    let Hp := fresh "Hp" in
    let Hs := fresh "Hs" in
    let Hout := fresh "Hout" in
    intros (Hd & Hp & Hs) Hout;
    first [ discriminate Hout
          | match goal with
            | H : data_returns _ _ _ = false |- _ =>
                rewrite Hd in H; discriminate H
            end
          | match goal with
            | H : px_returns _ _ _ = false |- _ =>
                rewrite Hp in H; discriminate H
            end
          | match goal with
            | H : display_returns _ _ = false |- _ =>
                rewrite Hs in H; discriminate H
            end ] ].

(** ** str.py: which calls of generate_chart fail *)

(** X6: on a DataFrame that is not empty, [generate_chart] of str.py fails
    with [UnboundLocalError] for a chart type it has no branch for.  For a
    chart type with a branch it looks up the [px] function of the branch
    first and fails with [AttributeError] when plotly.express has none of
    that name, whatever the columns (plotly.express has no [waterfall] and no
    [sankey]); then it reads the leading columns of the branch (1 for
    'histogram', 3 for 'heatmap', 'treemap', 'sunburst' and 'sankey', 2 for
    the others) and fails with [IndexError] when the DataFrame has fewer;
    past that the outcome is up to the libraries: one figure built by that
    function is handed to [st.plotly_chart] unless a library call raises. *)
Theorem str_generate_chart_outcome (lib : Library) (df : DataFrame)
  (kind : string)
  (title x_axis_label y_axis_label color_scale : option string)
  (bin_size : option Z) :
  empty df = false ->
  match StrChart.branch kind with
  | None =>
    StrChart.generate_chart lib df (Some kind) title x_axis_label y_axis_label
                            color_scale bin_size
    = inl UnboundLocalError
  | Some (function, m) =>
    if px_has lib function
    then if m <=? length (columns df)
         then up_to_plotly lib function
                (StrChart.generate_chart lib df (Some kind) title x_axis_label
                                         y_axis_label color_scale bin_size)
         else StrChart.generate_chart lib df (Some kind) title x_axis_label
                                      y_axis_label color_scale bin_size
              = inl IndexError
    else StrChart.generate_chart lib df (Some kind) title x_axis_label
                                 y_axis_label color_scale bin_size
         = inl AttributeError
  end.
Proof.
  intros Hne. destruct (not_empty_inv df Hne) as [Hcols _].
  unfold StrChart.generate_chart. rewrite Hne.
  destruct (kind_cases str_chart_types kind) as [Hin|Hout].
  - simpl in Hin.
    repeat (destruct Hin as [<-|Hin];
            [unfold StrChart.xy_chart, StrChart.three_column_chart, column;
             destruct (columns df) as [|c0 [|c1 [|c2 rest]]];
             [contradiction| | |]; oracle_cases;
             try reflexivity; close_plotly|]).
    contradiction.
  - unfold StrChart.branch. kind_is_none_of Hout kind. reflexivity.
Qed.

Lemma str_generate_chart_outcome_witness :
  StrChart.generate_chart no_waterfall_no_sankey df_value (Some "waterfall")
                          None None None None None
  = inl AttributeError
  /\ StrChart.generate_chart no_waterfall_no_sankey df_value (Some "bar")
                             None None None None None
     = inl IndexError.
Proof.
  split.
  - exact (str_generate_chart_outcome no_waterfall_no_sankey df_value
             "waterfall" None None None None None eq_refl).
  - exact (str_generate_chart_outcome no_waterfall_no_sankey df_value
             "bar" None None None None None eq_refl).
Defined.

(** X14: in [generate_chart] of str.py an empty title, axis label or colour
    scale and a bin size of 0 are replaced by the defaults exactly as absent
    ones are, whatever the libraries do. *)
Theorem str_falsy_options_are_absent (lib : Library) (df : DataFrame)
  (chart_type title x_axis_label y_axis_label color_scale : option string)
  (bin_size : option Z) :
  StrChart.generate_chart lib df chart_type title x_axis_label y_axis_label
                          color_scale bin_size
  = StrChart.generate_chart lib df chart_type (absent_if_falsy title)
      (absent_if_falsy x_axis_label) (absent_if_falsy y_axis_label)
      (absent_if_falsy color_scale) (absent_if_zero bin_size).
Proof.
  destruct title as [[|? ?]|], x_axis_label as [[|? ?]|],
    y_axis_label as [[|? ?]|], color_scale as [[|? ?]|],
    bin_size as [[|?|?]|]; reflexivity.
Qed.

(** ** pqr.py and xyz.py against str.py *)

(** X7: [generate_chart] of pqr.py does what that of str.py does for 'bar',
    'pie', 'line', 'scatter', 'heatmap' and 'histogram', on every DataFrame,
    with every option and whatever the libraries do; for any other chart
    type it fails with [UnboundLocalError] on a DataFrame that is not
    empty. *)
Theorem pqr_generate_chart_as_str (lib : Library) (df : DataFrame)
  (kind : string)
  (title x_axis_label y_axis_label color_scale : option string)
  (bin_size : option Z) :
  (In kind pqr_chart_types ->
   PqrChart.generate_chart lib df (Some kind) title x_axis_label y_axis_label
                           color_scale bin_size
   = StrChart.generate_chart lib df (Some kind) title x_axis_label
                             y_axis_label color_scale bin_size)
  /\ (~ In kind pqr_chart_types -> empty df = false ->
      PqrChart.generate_chart lib df (Some kind) title x_axis_label
                              y_axis_label color_scale bin_size
      = inl UnboundLocalError).
Proof.
  split.
  - intros Hin. simpl in Hin.
    unfold PqrChart.generate_chart, StrChart.generate_chart.
    destruct (empty df); [reflexivity|].
    repeat (destruct Hin as [<-|Hin]; [reflexivity|]). contradiction.
  - intros Hout Hne.
    unfold PqrChart.generate_chart. rewrite Hne.
    destruct (kind_cases pqr_chart_types kind) as [Hin|Hnone];
      [contradiction|].
    kind_is_none_of Hnone kind. reflexivity.
Qed.

Lemma pqr_generate_chart_as_str_witness :
  PqrChart.generate_chart obliging df_category_value (Some "boxplot")
                          None None None None None
  = inl UnboundLocalError.
Proof.
  apply (proj2 (pqr_generate_chart_as_str obliging df_category_value "boxplot"
                  None None None None None)).
  - simpl. intros H. repeat (destruct H as [H|H]; [discriminate H|]).
    exact H.
  - reflexivity.
Defined.

(** X8: on a DataFrame that is not empty, [generate_chart] of xyz.py writes
    'Unsupported chart type.' for a chart type outside 'bar', 'pie', 'line',
    'scatter', 'heatmap', 'histogram'.  For one of these it fails with
    [AttributeError] when plotly.express lacks the [px] function of the
    branch and with [IndexError] when the DataFrame lacks a column the
    branch reads (the function and the columns are those of the branch of
    str.py); past that the outcome is up to the libraries. *)
Theorem xyz_generate_chart_outcome (lib : Library) (df : DataFrame)
  (kind : string) :
  empty df = false ->
  (~ In kind pqr_chart_types ->
   XyzChart.generate_chart lib df (Some kind)
   = inr [StWrite "Unsupported chart type."])
  /\ (forall function m, In kind pqr_chart_types ->
      StrChart.branch kind = Some (function, m) ->
      if px_has lib function
      then if m <=? length (columns df)
           then up_to_plotly lib function
                  (XyzChart.generate_chart lib df (Some kind))
           else XyzChart.generate_chart lib df (Some kind) = inl IndexError
      else XyzChart.generate_chart lib df (Some kind) = inl AttributeError).
Proof.
  intros Hne. destruct (not_empty_inv df Hne) as [Hcols _].
  unfold XyzChart.generate_chart. rewrite Hne. split.
  - intros Hout.
    destruct (kind_cases pqr_chart_types kind) as [Hin|Hnone];
      [contradiction|].
    kind_is_none_of Hnone kind. reflexivity.
  - intros function m Hin Hm. simpl in Hin.
    repeat (destruct Hin as [<-|Hin];
            [vm_compute in Hm; injection Hm as <- <-; unfold column;
             destruct (columns df) as [|c0 [|c1 [|c2 rest]]];
             [contradiction| | |]; oracle_cases;
             try reflexivity; close_plotly|]).
    contradiction.
Qed.

Lemma xyz_generate_chart_outcome_witness :
  XyzChart.generate_chart obliging df_category_value (Some "boxplot")
  = inr [StWrite "Unsupported chart type."]
  /\ XyzChart.generate_chart obliging df_category_value (Some "heatmap")
     = inl IndexError.
Proof.
  split.
  - apply (proj1 (xyz_generate_chart_outcome obliging df_category_value
                    "boxplot" eq_refl)).
    simpl. intros H. repeat (destruct H as [H|H]; [discriminate H|]).
    exact H.
  - apply (proj2 (xyz_generate_chart_outcome obliging df_category_value
                    "heatmap" eq_refl) "imshow" 3);
      [simpl; tauto|reflexivity].
Defined.

(** ** Rendering what the selector chose *)

Ltac by_dtypes :=
  repeat match goal with
  | |- context [dtype_in ?d ?l] => destruct (dtype_in d l)
  end.

(** Give the branch of a literal chart type and the bound on its columns. *)
Ltac give_branch :=
  eexists; eexists;
  split; [vm_compute; reflexivity|split; [simpl; lia|]].

(** X9: in pqr.py, [generate_chart] applied to what [determine_chart_type]
    returns never fails in its own code, with [IndexError] or
    [UnboundLocalError]: it writes the 'no suitable chart' message for
    [None] and the 'empty' message when the DataFrame has no row; otherwise
    the chart type has a branch, the columns the branch reads are there, and
    the outcome is up to the libraries. *)
Theorem pqr_render_selected (lib : Library) (df : DataFrame)
  (title x_axis_label y_axis_label color_scale : option string)
  (bin_size : option Z) :
  match Pqr.determine_chart_type df with
  | None =>
    PqrChart.generate_chart lib df None title x_axis_label y_axis_label
                            color_scale bin_size
    = inr [StWrite "No suitable chart type determined for this data."]
  | Some kind =>
    if empty df
    then PqrChart.generate_chart lib df (Some kind) title x_axis_label
                                 y_axis_label color_scale bin_size
         = inr [StWrite "The input DataFrame is empty."]
    else exists function m,
        StrChart.branch kind = Some (function, m)
        /\ m <= length (columns df)
        /\ up_to_plotly lib function
             (PqrChart.generate_chart lib df (Some kind) title x_axis_label
                                      y_axis_label color_scale bin_size)
  end.
Proof.
  unfold Pqr.determine_chart_type, PqrChart.generate_chart, column, empty, len.
  destruct df as [cols r]. cbn [columns index_len].
  destruct cols as [|c0 [|c1 [|c2 rest]]]; by_dtypes; by_comparisons;
    cbn; try reflexivity; give_branch; oracle_cases; close_plotly.
Qed.

(** X10: the same for xyz.py. *)
Theorem xyz_render_selected (lib : Library) (df : DataFrame) :
  match Xyz.determine_chart_type df with
  | None =>
    XyzChart.generate_chart lib df None
    = inr [StWrite "No suitable chart type determined for this data."]
  | Some kind =>
    if empty df
    then XyzChart.generate_chart lib df (Some kind)
         = inr [StWrite "The input DataFrame is empty."]
    else exists function m,
        StrChart.branch kind = Some (function, m)
        /\ m <= length (columns df)
        /\ up_to_plotly lib function
             (XyzChart.generate_chart lib df (Some kind))
  end.
Proof.
  unfold Xyz.determine_chart_type, XyzChart.generate_chart, column, empty, len.
  destruct df as [cols r]. cbn [columns index_len].
  destruct cols as [|c0 [|c1 [|c2 rest]]]; by_dtypes; by_comparisons;
    cbn; try reflexivity; give_branch; oracle_cases; close_plotly.
Qed.

(** The branch and columns for a kind chosen by the rules of str.py. *)
Lemma waterfall_kind_branch (df : DataFrame) (kind : string) :
  Waterfall.determine_chart_type df = Some kind ->
  kind = "area"
  \/ exists function m, StrChart.branch kind = Some (function, m)
                        /\ m <= length (columns df).
Proof.
  pose proof (num_cat_le df) as Hle.
  rewrite waterfall_unfold. unfold_rules.
  destruct (has_time_column df); by_comparisons; simpl;
    intros Hres; try discriminate Hres; injection Hres as <-;
    try (left; reflexivity);
    right; eexists; eexists; (split; [vm_compute; reflexivity|lia]).
Qed.

Lemma str_chart_reaches_plotly (lib : Library) (df : DataFrame)
  (kind function : string) (m : nat)
  (title x_axis_label y_axis_label color_scale : option string)
  (bin_size : option Z) :
  empty df = false ->
  StrChart.branch kind = Some (function, m) ->
  m <= length (columns df) ->
  up_to_plotly lib function
    (StrChart.generate_chart lib df (Some kind) title x_axis_label
                             y_axis_label color_scale bin_size).
Proof.
  intros Hne Hm Hle.
  unfold StrChart.generate_chart. rewrite Hne.
  destruct (kind_cases str_chart_types kind) as [Hin|Hout].
  - simpl in Hin.
    repeat (destruct Hin as [<-|Hin];
            [vm_compute in Hm; injection Hm as <- <-;
             unfold StrChart.xy_chart, StrChart.three_column_chart, column;
             destruct (columns df) as [|c0 [|c1 [|c2 rest]]];
             simpl in Hle; try lia; oracle_cases; close_plotly|]).
    contradiction.
  - exfalso. revert Hm. unfold StrChart.branch.
    kind_is_none_of Hout kind. discriminate.
Qed.

(** X11: in str.py, when [determine_chart_type] returns for a DataFrame,
    [generate_chart] applied to the result writes the 'no suitable chart'
    message for [None] and fails with [UnboundLocalError] for 'area', for
    which it has no branch; otherwise the chart type has a branch, the
    columns the branch reads are there (no [IndexError]), and the outcome is
    up to the libraries. *)
Theorem str_render_selected (lib : Library) (df : DataFrame)
  (v : option string)
  (title x_axis_label y_axis_label color_scale : option string)
  (bin_size : option Z) :
  Str.determine_chart_type (PyDataFrame df) = Returns v ->
  match v with
  | None =>
    StrChart.generate_chart lib df v title x_axis_label y_axis_label
                            color_scale bin_size
    = inr [StWrite "No suitable chart type determined for this data."]
  | Some kind =>
    if String.eqb kind "area"
    then StrChart.generate_chart lib df v title x_axis_label y_axis_label
                                 color_scale bin_size
         = inl UnboundLocalError
    else exists function m,
        StrChart.branch kind = Some (function, m)
        /\ m <= length (columns df)
        /\ up_to_plotly lib function
             (StrChart.generate_chart lib df v title x_axis_label
                                      y_axis_label color_scale bin_size)
  end.
Proof.
  rewrite str_guarded. destruct (empty df) eqn:Hne; [discriminate|].
  intros H. injection H as Hv. destruct v as [kind|]; [|reflexivity].
  destruct (waterfall_kind_branch df kind Hv) as [->|(function & m & Hm & Hle)].
  - unfold StrChart.generate_chart. rewrite Hne. reflexivity.
  - destruct (String.eqb_spec kind "area") as [->|_]; [discriminate Hm|].
    exists function, m. split; [exact Hm|split; [exact Hle|]].
    exact (str_chart_reaches_plotly lib df kind function m _ _ _ _ _
             Hne Hm Hle).
Qed.

Lemma str_render_selected_witness :
  StrChart.generate_chart obliging df_number_two_flags (Some "area")
                          None None None None None
  = inl UnboundLocalError.
Proof.
  exact (str_render_selected obliging df_number_two_flags (Some "area")
           None None None None None eq_refl).
Defined.

(** X12: in abc_chat.py, for a chart type returned by
    [determine_chart_type], [generate_chart] finds the two columns it reads
    (no [IndexError]) and calls the [px] function of that name; the outcome
    is up to the libraries. *)
Theorem abc_chat_render_selected (lib : Library) (df : DataFrame)
  (kind : string) :
  AbcChat.determine_chart_type df = Returns (Some kind) ->
  2 <= length (columns df)
  /\ up_to_plotly lib kind (AbcChatChart.generate_chart lib df (Some kind)).
Proof.
  unfold AbcChat.determine_chart_type, AbcChatChart.generate_chart, column.
  destruct (columns df) as [|c0 [|c1 [|c2 rest]]];
    try discriminate;
    destruct (AbcChat.issubdtype_number (dtype c1)) as [e|[|]];
    try discriminate; by_comparisons; simpl;
    intros Hres; try discriminate Hres; injection Hres as <-;
    (split; [simpl; lia|]); oracle_cases; close_plotly.
Qed.

Lemma abc_chat_render_selected_witness :
  2 <= length (columns df_category_value)
  /\ up_to_plotly obliging "bar"
       (AbcChatChart.generate_chart obliging df_category_value (Some "bar")).
Proof.
  exact (abc_chat_render_selected obliging df_category_value "bar" eq_refl).
Defined.

(** X13: in csv1.py, for a chart type returned by [determine_chart_type],
    [generate_chart] finds the columns it reads (no [IndexError]).  For
    'heatmap' it computes the correlation matrix first and then calls
    [px.imshow]; for the other chart types it calls the [px] function of
    that name; the outcome is up to the libraries. *)
Theorem csv1_render_selected (lib : Library) (df : DataFrame)
  (kind : string) :
  Csv1.determine_chart_type df = Some kind ->
  if String.eqb kind "heatmap"
  then if data_returns lib df (CorrMatrix (map name (select_number df)))
       then up_to_plotly lib "imshow"
              (Csv1Chart.generate_chart lib df (Some kind))
       else Csv1Chart.generate_chart lib df (Some kind) = inl LibraryError
  else 2 <= length (columns df)
       /\ up_to_plotly lib kind (Csv1Chart.generate_chart lib df (Some kind)).
Proof.
  pose proof (number_split df) as Hsplit.
  unfold Csv1.determine_chart_type, Csv1Chart.generate_chart, column.
  cbv zeta.
  by_comparisons; simpl; intros Hres; try discriminate Hres;
    injection Hres as <-; cbn;
    try (split; [lia|]);
    try (destruct (columns df) as [|c0 [|c1 rest]];
         [simpl in *; lia|simpl in *; try lia|]);
    oracle_cases; try reflexivity; close_plotly.
Qed.

Lemma csv1_render_selected_witness :
  2 <= length (columns df_two_categories)
  /\ up_to_plotly obliging "box"
       (Csv1Chart.generate_chart obliging df_two_categories (Some "box")).
Proof.
  exact (csv1_render_selected obliging df_two_categories "box" eq_refl).
Defined.

(** ** More on csv1.py and abc_chat.py *)

(** X15: the results of [determine_chart_type] of csv1.py, over all
    DataFrames, are exactly [None], 'histogram', 'pie', 'scatter', 'heatmap',
    'line' and 'box'; its 'bar' branch never decides. *)
Theorem csv1_image (v : option string) :
  (exists df, Csv1.determine_chart_type df = v) <-> In v csv1_results.
Proof.
  split.
  - intros [df <-]. unfold Csv1.determine_chart_type. cbv zeta.
    by_comparisons; simpl; tauto.
  - unfold csv1_results. simpl.
    intros [<-|[<-|[<-|[<-|[<-|[<-|[<-|[]]]]]]]].
    + exists df_value. reflexivity.
    + exists (df_text_number "Category" "Value" 11). reflexivity.
    + exists df_category_value. reflexivity.
    + exists df_x_y. reflexivity.
    + exists df_three_numbers. reflexivity.
    + exists df_category_two_values. reflexivity.
    + exists df_two_categories. reflexivity.
Qed.

Lemma csv1_image_witness :
  In (Csv1.determine_chart_type df_x_y) csv1_results.
Proof.
  apply (proj1 (csv1_image _)). exists df_x_y. reflexivity.
Defined.

(** X16: in csv1.py a 2-column DataFrame with exactly one number column gets
    'histogram' with more than 10 rows and 'pie' with at most 10, whatever
    the other column is. *)
Theorem csv1_two_columns_one_number (df : DataFrame) :
  length (columns df) = 2 ->
  length (select_number df) = 1 ->
  Csv1.determine_chart_type df
  = Some (if 10 <? len df then "histogram" else "pie").
Proof.
  intros Hn Hk. unfold Csv1.determine_chart_type. cbv zeta.
  rewrite Hn, Hk. simpl. by_comparisons; reflexivity.
Qed.

Lemma csv1_two_columns_one_number_witness :
  Csv1.determine_chart_type (df_text_number "Category" "Value" 11)
  = Some "histogram".
Proof.
  exact (csv1_two_columns_one_number (df_text_number "Category" "Value" 11)
           eq_refl eq_refl).
Defined.

(** X17: [determine_chart_type] of abc_chat.py returns 'pie' only for a
    2-column DataFrame with at most one row, and 'bar' only for a 2-column
    DataFrame with more than one row: the 'bar' test [len(df) > 1] comes
    before the 'pie' test [len(df) <= 10]. *)
Theorem abc_chat_pie_needs_at_most_one_row (df : DataFrame) :
  (AbcChat.determine_chart_type df = Returns (Some "pie") ->
   length (columns df) = 2 /\ len df <= 1)
  /\ (AbcChat.determine_chart_type df = Returns (Some "bar") ->
      length (columns df) = 2 /\ 1 < len df).
Proof.
  unfold AbcChat.determine_chart_type.
  destruct (columns df) as [|c0 [|c1 [|c2 rest]]];
    try (split; discriminate);
    destruct (AbcChat.issubdtype_number (dtype c1)) as [e|[|]];
    try (split; discriminate);
    by_comparisons; simpl; split; intros Hres; try discriminate Hres;
    split; (reflexivity || lia).
Qed.

Lemma abc_chat_pie_needs_at_most_one_row_witness :
  length (columns (df_text_number "Category" "Value" 1)) = 2
  /\ len (df_text_number "Category" "Value" 1) <= 1.
Proof.
  exact (proj1 (abc_chat_pie_needs_at_most_one_row
                  (df_text_number "Category" "Value" 1)) eq_refl).
Defined.
